(** * olclient.openlibrary: a shallow embedding of the Open Library client

    The development follows [olclient/openlibrary.py]: Python values as an
    inductive type with dictionaries as finite maps, exceptions as an
    outcome type, and the network, the logger and the standard output as a
    trace of events threaded through every call. *)

From Stdlib Require Import ZArith NArith Ascii String List Lia Bool.
From stdpp Require Import base option strings gmap list pretty.

Set Default Proof Using "Type".
#[local] Set Warnings "-register-all".

(** ** Text

    Python 2 [unicode] strings, restricted to the code points U+0000 to
    U+00FF: one [ascii] per code point. *)

Module Text.

Definition code (c : ascii) : N := N_of_ascii c.

Definition between (lo hi : N) (c : ascii) : bool :=
  (lo <=? code c)%N && (code c <=? hi)%N.

(** The character class [[0-9a-zA-Z]]. *)
Definition is_alnum (c : ascii) : bool :=
  between 48 57 c || between 97 122 c || between 65 90 c.

(** [unicode.isspace] below U+0100. *)
Definition is_space (c : ascii) : bool :=
  between 9 13 c || between 28 32 c
  || (code c =? 133)%N || (code c =? 160)%N.

(** [unicode.lower] on one code point below U+0100. *)
Definition lower_char (c : ascii) : ascii :=
  if between 65 90 c || (between 192 222 c && negb (code c =? 215)%N)
  then ascii_of_N (code c + 32)
  else c.

Fixpoint lower (s : string) : string :=
  match s with
  | EmptyString => EmptyString
  | String c s' => String (lower_char c) (lower s')
  end.

Fixpoint lstrip (s : string) : string :=
  match s with
  | EmptyString => EmptyString
  | String c s' => if is_space c then lstrip s' else s
  end.

Fixpoint rstrip (s : string) : string :=
  match s with
  | EmptyString => EmptyString
  | String c s' =>
      match rstrip s' with
      | EmptyString => if is_space c then EmptyString else String c EmptyString
      | r => String c r
      end
  end.

Definition strip (s : string) : string := rstrip (lstrip s).

(** [s.split(sep)] for a one-character separator: never the empty list. *)
Fixpoint split (sep : ascii) (s : string) : list string :=
  match s with
  | EmptyString => [EmptyString]
  | String c s' =>
      if Ascii.eqb c sep then EmptyString :: split sep s'
      else match split sep s' with
           | h :: t => String c h :: t
           | [] => [String c EmptyString]
           end
  end.

(** The longest prefix of alphanumerics, and what follows it. *)
Fixpoint span_alnum (s : string) : string * string :=
  match s with
  | EmptyString => (EmptyString, EmptyString)
  | String c s' =>
      if is_alnum c
      then let '(a, r) := span_alnum s' in (String c a, r)
      else (EmptyString, s)
  end.

Fixpoint all_alnum (s : string) : bool :=
  match s with
  | EmptyString => true
  | String c s' => is_alnum c && all_alnum s'
  end.

(** Printable ASCII other than the quotes and the backslash. *)
Definition is_plain (c : ascii) : bool :=
  between 32 126 c
  && negb ((code c =? 34)%N || (code c =? 39)%N || (code c =? 92)%N).

Fixpoint all_plain (s : string) : bool :=
  match s with
  | EmptyString => true
  | String c s' => is_plain c && all_plain s'
  end.

(** [sub in s] on strings. *)
Fixpoint contains (sub s : string) : bool :=
  String.prefix sub s
  || match s with
     | EmptyString => false
     | String _ s' => contains sub s'
     end.

End Text.

(** ** Exceptions and outcomes *)

Inductive exn : Type :=
| ValueError (msg : string)
| KeyError (key : string)
| IndexError
| TypeError
| AttributeError
| RequestException (msg : string) (* requests.exceptions.RequestException *)
| Exception (msg : string).

(** What running a piece of the client gives: a value, a raised exception,
    or [Unmodelled] where the run leaves what this development describes
    of Python and its libraries (each place says which). *)
Inductive outcome (A : Type) : Type :=
| Return (a : A)
| Raise (e : exn)
| Unmodelled.
Arguments Return {A} a.
Arguments Raise {A} e.
Arguments Unmodelled {A}.

Definition obind {A B} (o : outcome A) (k : A -> outcome B) : outcome B :=
  match o with
  | Return a => k a
  | Raise e => Raise e
  | Unmodelled => Unmodelled
  end.

(** ** The fragment of [re] the client's pattern needs

    [_extract_olid_from_url] splices the resource type into the pattern
    text, so the type is read as a regular expression.  A type made of
    ordinary characters and of [.] is covered; any other metacharacter
    gives [Unmodelled]. *)

Module Re.

Inductive atom : Type :=
| Lit (c : ascii)       (* an ordinary character matches itself *)
| Dot.                  (* [.] matches any character but a newline *)

Definition metachar (c : ascii) : bool :=
  match c with
  | "."%char | "^"%char | "$"%char | "*"%char | "+"%char | "?"%char
  | "{"%char | "}"%char | "["%char | "]"%char | "\"%char | "|"%char
  | "("%char | ")"%char => true
  | _ => false
  end.

Fixpoint compile (p : string) : option (list atom) :=
  match p with
  | EmptyString => Some []
  | String c p' =>
      if Ascii.eqb c "."%char then cons Dot <$> compile p'
      else if metachar c then None
      else cons (Lit c) <$> compile p'
  end.

Definition atom_matches (a : atom) (c : ascii) : bool :=
  match a with
  | Lit c' => Ascii.eqb c' c
  | Dot => negb (Ascii.eqb c "010"%char)
  end.

(** Match the atoms at the start of [s]; the rest of [s] on success. *)
Fixpoint match_atoms (p : list atom) (s : string) : option string :=
  match p, s with
  | [], _ => Some s
  | a :: p', String c s' =>
      if atom_matches a c then match_atoms p' s' else None
  | _ :: _, EmptyString => None
  end.

(** [[/]<p>[/]([0-9a-zA-Z]+)] matched at the start of [s]: group 1. *)
Definition match_here (p : list atom) (s : string) : option string :=
  match s with
  | String c s1 =>
      if Ascii.eqb c "/"%char then
        match match_atoms p s1 with
        | Some (String c' s2) =>
            if Ascii.eqb c' "/"%char then
              match Text.span_alnum s2 with
              | (EmptyString, _) => None
              | (id, _) => Some id
              end
            else None
        | _ => None
        end
      else None
  | EmptyString => None
  end.

(** [re.search]: the leftmost position at which the pattern matches. *)
Fixpoint search (p : list atom) (s : string) : option string :=
  match match_here p s with
  | Some id => Some id
  | None =>
      match s with
      | EmptyString => None
      | String _ s' => search p s'
      end
  end.

End Re.

(** [OpenLibrary._extract_olid_from_url] (a static method).  The
    [AttributeError] of [None.group(1)] is caught and gives [None]. *)
Definition _extract_olid_from_url (url url_type : string)
  : outcome (option string) :=
  match Re.compile url_type with
  | None => Unmodelled
  | Some p => Return (Re.search p url)
  end.


(** ** Python values

    What [response.json()] gives, and what the fields of books, authors
    and search documents hold. *)

Inductive pyval : Type :=
| PNone
| PBool (b : bool)
| PInt (z : Z)
| PStr (s : string)
| PList (l : list pyval)
| PDict (d : gmap string pyval)
| PAuthor (name olid : pyval).   (* an olclient.book.Author object *)

Module Py.

(** Truth value testing. *)
Definition truthy (v : pyval) : bool :=
  match v with
  | PNone => false
  | PBool b => b
  | PInt z => negb (z =? 0)%Z
  | PStr s => match s with EmptyString => false | _ => true end
  | PList l => match l with [] => false | _ => true end
  | PDict d => match map_to_list d with [] => false | _ => true end
  | PAuthor _ _ => true
  end.

(** [v or w]. *)
Definition or_else (v w : pyval) : pyval := if truthy v then v else w.

Definition of_option (o : option string) : pyval :=
  match o with Some s => PStr s | None => PNone end.

(** [v[k]] for a string [k]. *)
Definition getitem (v : pyval) (k : string) : outcome pyval :=
  match v with
  | PDict d =>
      match d !! k with Some x => Return x | None => Raise (KeyError k) end
  | _ => Raise TypeError
  end.

(** [v[0]]. A dictionary of this development has string keys only. *)
Definition getitem0 (v : pyval) : outcome pyval :=
  match v with
  | PList (x :: _) => Return x
  | PList [] => Raise IndexError
  | PStr (String c _) => Return (PStr (String c EmptyString))
  | PStr EmptyString => Raise IndexError
  | PDict _ => Raise (KeyError "0")
  | _ => Raise TypeError
  end.

(** [v == k] for a string [k]. *)
Definition eq_str (v : pyval) (k : string) : bool :=
  match v with PStr s => String.eqb s k | _ => false end.

(** [k in v] for a string [k]. *)
Definition contains (k : string) (v : pyval) : outcome bool :=
  match v with
  | PDict d => Return (bool_decide (is_Some (d !! k)))
  | PList l => Return (existsb (fun x => eq_str x k) l)
  | PStr s => Return (Text.contains k s)
  | _ => Raise TypeError
  end.

Fixpoint chars (s : string) : list pyval :=
  match s with
  | EmptyString => []
  | String c s' => PStr (String c EmptyString) :: chars s'
  end.

(** The items a [for] loop or [zip] draws from [v].  The order in which
    a dictionary gives its keys is not described: [Unmodelled] unless
    it is empty. *)
Definition iter (v : pyval) : outcome (list pyval) :=
  match v with
  | PList l => Return l
  | PStr s => Return (chars s)
  | PDict d => match map_to_list d with [] => Return [] | _ => Unmodelled end
  | _ => Raise TypeError
  end.

(** [v.lower().strip()]. *)
Definition lower_strip (v : pyval) : outcome string :=
  match v with
  | PStr s => Return (Text.strip (Text.lower s))
  | _ => Raise AttributeError
  end.

(** [v.split('/')[-1]]. *)
Definition split_last (v : pyval) : outcome string :=
  match v with
  | PStr s =>
      match last (Text.split "/"%char s) with
      | Some x => Return x
      | None => Raise IndexError
      end
  | _ => Raise AttributeError
  end.

(** ['%s' % v], described for strings and integers. *)
Definition format_s (v : pyval) : outcome string :=
  match v with
  | PStr s => Return s
  | PInt z => Return (pretty z)
  | _ => Unmodelled
  end.

(** [re.search(pattern, v)] wants a string. *)
Definition as_text (v : pyval) : outcome string :=
  match v with
  | PStr s => Return s
  | _ => Raise TypeError
  end.

(** Unpacking [v] into keyword arguments wants a mapping. *)
Definition as_kwargs (v : pyval) : outcome (gmap string pyval) :=
  match v with
  | PDict d => Return d
  | _ => Raise TypeError
  end.

(** [v[k] = x] for a string [k]: the dictionary [v] after the store. *)
Definition setitem (v : pyval) (k : string) (x : pyval) : outcome pyval :=
  match v with
  | PDict d => Return (PDict (<[k := x]> d))
  | _ => Raise TypeError
  end.

(** [v.get(k, dflt)]. *)
Definition get (v : pyval) (k : string) (dflt : pyval) : outcome pyval :=
  match v with
  | PDict d => Return (default dflt (d !! k))
  | _ => Raise AttributeError
  end.

(** A keyword parameter with a default. *)
Definition kwarg (kw : gmap string pyval) (k : string) (dflt : pyval)
  : pyval := default dflt (kw !! k).

(** [repr(s)] of a byte string, described for printable ASCII without
    quote and backslash, where it is [s] between single quotes. *)
Definition repr_str (s : string) : outcome string :=
  if Text.all_plain s then Return ("'" +:+ s +:+ "'") else Unmodelled.

(** The [reprs] of the items, joined by a comma and a space. *)
Fixpoint repr_items (l : list string) : outcome string :=
  match l with
  | [] => Return ""
  | [s] => repr_str s
  | s :: rest =>
      obind (repr_str s) (fun r =>
      obind (repr_items rest) (fun rs => Return (r +:+ ", " +:+ rs)))
  end.

(** ['%s' % l] for a list [l] of byte strings: its [repr]. *)
Definition repr_list (l : list string) : outcome string :=
  obind (repr_items l) (fun rs => Return ("[" +:+ rs +:+ "]")).

End Py.

(** ** The network, the logger and the standard output *)

Inductive http_method : Type := GET | POST.

Inductive body : Type :=
| NoBody
| JsonText (v : pyval)              (* data=json.dumps(v) *)
| Form (d : gmap string pyval).     (* data=d, form encoded *)

Record request : Type := mkRequest
  { rq_method : http_method;
    rq_url : string;
    rq_data : body;
    rq_headers : list (string * string) }.

Record response : Type := mkResponse
  { resp_url : string;                (* the URL after redirects *)
    resp_headers : list string;       (* the names of the headers *)
    resp_json : outcome pyval }.      (* what .json() gives *)

Inductive event : Type :=
| EvRequest (r : request)        (* a request left the client *)
| EvSleep (nominal : nat)        (* backoff waits, at most [nominal] s *)
| EvGiveUp (msg : string)        (* the on_giveup callback ran *)
| EvLogException (e : exn)       (* logger.exception(e) *)
| EvPrint (v : pyval).           (* print(v) *)

Definition trace := list event.

Definition is_request (ev : event) : bool :=
  match ev with EvRequest _ => true | _ => false end.

Definition is_giveup (ev : event) : bool :=
  match ev with EvGiveUp _ => true | _ => false end.

Definition requests_sent (tr : trace) : nat :=
  length (List.filter is_request tr).
Definition giveups (tr : trace) : nat :=
  length (List.filter is_giveup tr).

(** What the network answers to the [n]-th request of a run (from 0). *)
Definition transport := nat -> request -> outcome response.

(** A computation of the client: it reads and extends the trace. An
    exception keeps the events that came before it. *)
Definition M (A : Type) : Type := trace -> outcome A * trace.

Definition ret {A} (a : A) : M A := fun tr => (Return a, tr).
Definition raise {A} (e : exn) : M A := fun tr => (Raise e, tr).
Definition lift {A} (o : outcome A) : M A := fun tr => (o, tr).
Definition emit (ev : event) : M unit := fun tr => (Return tt, tr ++ [ev]).

Definition bind {A B} (m : M A) (k : A -> M B) : M B :=
  fun tr =>
    match m tr with
    | (Return a, tr') => k a tr'
    | (Raise e, tr') => (Raise e, tr')
    | (Unmodelled, tr') => (Unmodelled, tr')
    end.

Notation "'let!' x ':=' m 'in' k" := (bind m (fun x => k))
  (at level 10, x pattern, m at level 100, k at level 200).
Notation "m ';;;' k" := (bind m (fun _ => k))
  (at level 100, k at level 200, right associativity).

(** [try: m  except ValueError as e: h e]. *)
Definition except_ValueError {A} (m : M A) (h : exn -> M A) : M A :=
  fun tr =>
    match m tr with
    | (Raise (ValueError msg), tr') => h (ValueError msg) tr'
    | r => r
    end.

(** ** backoff *)

Module backoff.

(** Modelled from the spec: [backoff.expo], the wait generator (the
    backoff package is not part of the sources): the delay grows
    exponentially, 1, 2, 4, ... before each further attempt. *)
Definition expo (n : nat) : nat := 2 ^ n.

Section on_exception.
Context {A : Type}.
Variable wait_gen : nat -> nat.
Variable exception : exn -> bool.
Variable max_tries : nat.
Variable on_giveup : exn -> M unit.
Variable target : M A.

(** One round of the retry loop, [tries] attempts having been made. *)
Fixpoint retry (fuel tries : nat) : M A :=
  match fuel with
  | O => lift Unmodelled
  | S fuel' =>
      fun tr =>
        match target tr with
        | (Raise e, tr') =>
            if exception e then
              if S tries =? max_tries
              then (on_giveup e ;;; raise e) tr'
              else (emit (EvSleep (wait_gen tries)) ;;;
                    retry fuel' (S tries)) tr'
            else (Raise e, tr')
        | r => r
        end
  end.

(** Modelled from the spec: [backoff.on_exception], the decorator
    (the backoff package is not part of the sources): invoke the
    operation; on an exception of the retriable family wait and
    invoke it again, up to [max_tries] attempts in all; when the last
    attempt fails call [on_giveup] and let the error through; any
    other exception goes through at once.  With [max_tries = 0] the
    count is never reached and the loop has no bound: [Unmodelled]. *)
Definition on_exception : M A := retry max_tries 0.

End on_exception.

End backoff.

Definition is_RequestException (e : exn) : bool :=
  match e with RequestException _ => true | _ => false end.

(** ** olclient.book *)

Module book.

(** Modelled from the spec: [Author] of olclient/book.py, which is not
    part of the sources: a name and an optional internal identifier,
    kept as they are given. *)
Definition Author (name olid : pyval) : pyval := PAuthor name olid.

(** Modelled from the spec: [Book] of olclient/book.py, which is not
    part of the sources: title, subtitle, publisher, publish date, list
    of authors and the mapping from identifier kind to list of values;
    further keyword arguments are kept as attributes. *)
Record Book : Type := mkBook
  { title : pyval;
    subtitle : pyval;
    identifiers : pyval;
    authors : pyval;
    publisher : pyval;
    publish_date : pyval;
    extra : gmap string pyval }.

(** Modelled from the spec: the constructor called with keyword
    arguments, as in the calls and the docstrings of openlibrary.py: a
    title is required, a missing mapping of identifiers is empty and a
    missing list of authors is empty. *)
Definition Book_kwargs (kw : gmap string pyval) : outcome Book :=
  match kw !! "title" with
  | None => Raise TypeError
  | Some t =>
      Return
        {| title := t;
           subtitle := Py.kwarg kw "subtitle" (PStr "");
           identifiers :=
             Py.or_else (Py.kwarg kw "identifiers" PNone) (PDict ∅);
           authors := Py.or_else (Py.kwarg kw "authors" PNone) (PList []);
           publisher := Py.kwarg kw "publisher" PNone;
           publish_date := Py.kwarg kw "publish_date" (PStr "");
           extra :=
             delete "title" (delete "subtitle" (delete "identifiers"
               (delete "authors" (delete "publisher"
                  (delete "publish_date" kw))))) |}
  end.

(** Modelled from the spec: the property [Book.primary_author] of
    olclient/book.py, which is not part of the sources: the first of
    the authors, [None] when there is none. *)
Definition primary_author (b : Book) : outcome pyval :=
  if Py.truthy (authors b) then Py.getitem0 (authors b) else Return PNone.

(** [a.name]. *)
Definition name_of (a : pyval) : outcome pyval :=
  match a with
  | PAuthor n _ => Return n
  | _ => Raise AttributeError
  end.

End book.

(** ** class OpenLibrary *)

Record backoff_kwargs : Type :=
  { wait_gen : nat -> nat;
    exception : exn -> bool;
    max_tries : nat }.

Record OpenLibrary : Type :=
  { base_url : string;
    net : transport }.

Definition VALID_IDS : list string := ["isbn_10"; "isbn_13"; "lccn"].

Definition BACKOFF_KWARGS : backoff_kwargs :=
  {| wait_gen := backoff.expo;
     exception := is_RequestException;
     max_tries := 5 |}.

(** [session.get], [session.post], [requests.get]: the request leaves,
    the network answers. *)
Definition send (self : OpenLibrary) (r : request) : M response :=
  fun tr => (net self (requests_sent tr) r, tr ++ [EvRequest r]).

Definition http_get (self : OpenLibrary) (url : string) : M response :=
  send self (mkRequest GET url NoBody []).

(** [@backoff.on_exception(on_giveup=err, **self.BACKOFF_KWARGS)], with
    [err] the lambda that logs [msg]. *)
Definition with_backoff {A} (msg : string) (target : M A) : M A :=
  backoff.on_exception (wait_gen BACKOFF_KWARGS) (exception BACKOFF_KWARGS)
    (max_tries BACKOFF_KWARGS) (fun _ => emit (EvGiveUp msg)) target.

(** ['Set-Cookie' in response.headers]: header names compare without
    regard to case. *)
Definition has_header (h : string) (r : response) : bool :=
  existsb (fun h' => String.eqb (Text.lower h') (Text.lower h))
    (resp_headers r).

Definition login (self : OpenLibrary) (credentials : gmap string pyval)
  : M unit :=
  let headers := [("Content-Type", "application/json")] in
  let url := base_url self +:+ "/account/login" in
  let data := JsonText (PDict credentials) in
  let! response :=
    with_backoff "Error at login: %s"
      (send self (mkRequest POST url data headers)) in
  if has_header "Set-Cookie" response then ret tt
  else raise (Exception "No cookie set").

Definition get_matching_authors_by_name
  (self : OpenLibrary) (name : pyval) (limit : pyval) : M pyval :=
  if Py.truthy name then
    let! n := lift (Py.format_s name) in
    let! l := lift (Py.format_s limit) in
    let url :=
      base_url self +:+ "/authors/_autocomplete?q=" +:+ n
        +:+ "&limit=" +:+ l in
    let! response :=
      with_backoff "Error fetching author matches: %s" (http_get self url) in
    lift (resp_json response)
  else ret (PList []).

(** The loop of [get_matching_authors_olid] over the candidates. *)
Fixpoint first_exact_match (_name : string) (authors : list pyval)
  : outcome (option string) :=
  match authors with
  | [] => Return None
  | author :: rest =>
      obind (Py.getitem author "name") (fun n =>
      obind (Py.lower_strip n) (fun n' =>
      if String.eqb _name n' then
        obind (Py.getitem author "key") (fun k =>
        obind (Py.split_last k) (fun o => Return (Some o)))
      else first_exact_match _name rest))
  end.

Definition get_matching_authors_olid (self : OpenLibrary) (name : pyval)
  : M (option string) :=
  let! authors := get_matching_authors_by_name self name (PInt 1) in
  let! _name := lift (Py.lower_strip name) in
  let! items := lift (Py.iter authors) in
  lift (first_exact_match _name items).

(** The loop of [get_primary_identifier] over [VALID_IDS]. *)
Fixpoint scan_ids (ids : pyval) (keys : list string)
  : outcome (option (string * pyval)) :=
  match keys with
  | [] => Return None
  | valid_key :: rest =>
      obind (Py.contains valid_key ids) (fun present =>
      if present : bool then
        obind (Py.getitem ids valid_key) (fun l =>
        obind (Py.getitem0 l) (fun id_value =>
        Return (Some (valid_key, id_value))))
      else scan_ids ids rest)
  end.

Definition get_primary_identifier (b : book.Book)
  : outcome (string * pyval) :=
  obind (scan_ids (book.identifiers b) VALID_IDS) (fun r =>
  match r with
  | Some (id_name, id_value) =>
      if Py.truthy (PStr id_name) && Py.truthy id_value
      then Return (id_name, id_value)
      else Raise (ValueError "ISBN10/13 or LCCN required")
  | None => Raise (ValueError "ISBN10/13 or LCCN required")
  end).

(** What [create_book] gives back: the fields it would post when [debug]
    is set, the identifier found in the final URL otherwise. *)
Inductive created : Type :=
| Payload (data : gmap string pyval)
| NewOlid (olid : option string).

Definition creation_url (self : OpenLibrary) : string :=
  base_url self +:+ "/books/add".

Definition _create_book (self : OpenLibrary)
  (title author_name author_key publish_date publisher : pyval)
  (id_name : string) (id_value : pyval) (debug : bool) : M created :=
  if negb (bool_decide (id_name ∈ VALID_IDS)) then
    let! valid := lift (Py.repr_list VALID_IDS) in
    raise (ValueError ("Invalid `id_name`. Must be one of " +:+ valid
                         +:+ ", got " +:+ id_name))
  else
    let url := creation_url self in
    let data : gmap string pyval :=
      {[ "title" := title;
         "author_name" := author_name;
         "author_key" := author_key;
         "publish_date" := publish_date;
         "publisher" := publisher;
         "id_name" := PStr id_name;
         "id_value" := id_value;
         "_save" := PStr "" ]} in
    if debug then ret (Payload data)
    else
      let! response :=
        with_backoff "Error creating OpenLibrary book: %s"
          (send self (mkRequest POST url (Form data) [])) in
      let! olid := lift (_extract_olid_from_url (resp_url response) "books") in
      ret (NewOlid olid).

Definition create_book (self : OpenLibrary) (b : book.Book) (debug : bool)
  : M created :=
  let! (id_name, id_value) := lift (get_primary_identifier b) in
  let! primary_author := lift (book.primary_author b) in
  let! author_name :=
    (if Py.truthy primary_author then lift (book.name_of primary_author)
     else ret (PStr "")) in
  let! author_olid := get_matching_authors_olid self author_name in
  let author_key :=
    match author_olid with
    | Some o => if Py.truthy (PStr o) then PStr ("/authors/" +:+ o)
                else PStr "__new__"
    | None => PStr "__new__"
    end in
  _create_book self (book.title b) author_name author_key
    (book.publish_date b) (book.publisher b) id_name id_value debug.

Definition get_book_by_olid (self : OpenLibrary) (olid : pyval)
  : M book.Book :=
  let! o := lift (Py.format_s olid) in
  let url := base_url self +:+ "/books/" +:+ o +:+ ".json" in
  let! response :=
    with_backoff "Error retrieving OpenLibrary book: %s" (http_get self url) in
  let! j := lift (resp_json response) in
  let! kw := lift (Py.as_kwargs j) in
  lift (book.Book_kwargs kw).

(** ** class Results *)

Module Results.

Record Document : Type := mkDocument
  { title : pyval;
    subtitle : pyval;
    subjects : pyval;
    authors : list pyval;
    publishers : pyval;
    publish_dates : pyval;
    publish_places : pyval;
    first_publish_year : pyval;
    edition_olids : pyval;
    language : pyval;
    identifiers : gmap string pyval }.

Record t : Type := mkResults
  { start : pyval;
    num_found : pyval;
    docs : list Document }.

(** [Document.__init__], called with the keyword arguments [kw].  The
    instance is bound to [self] already: a keyword of that name is a
    second value for it, a TypeError, as is a missing [key]. *)
Definition Document_init (kw : gmap string pyval) : outcome Document :=
  match kw !! "self", kw !! "key" with
  | Some _, _ => Raise TypeError
  | None, None => Raise TypeError
  | None, Some key =>
      obind (obind (Py.as_text key)
               (fun u => _extract_olid_from_url u "works")) (fun work_olid =>
      obind (Py.iter (Py.or_else (Py.kwarg kw "author_name" (PStr ""))
                        (PList []))) (fun names =>
      obind (Py.iter (Py.or_else (Py.kwarg kw "author_key" PNone)
                        (PList []))) (fun keys =>
      Return
        {| title := Py.kwarg kw "title" (PStr "");
           subtitle := Py.kwarg kw "subtitle" PNone;
           subjects := Py.kwarg kw "subject" PNone;
           authors := zip_with book.Author names keys;
           publishers := Py.kwarg kw "publisher" PNone;
           publish_dates := Py.kwarg kw "publish_date" PNone;
           publish_places := Py.kwarg kw "publish_place" PNone;
           first_publish_year := Py.kwarg kw "first_publish_year" PNone;
           edition_olids := Py.kwarg kw "edition_key" PNone;
           language := Py.kwarg kw "language" (PStr "");
           identifiers :=
             {[ "olid" := PList [Py.of_option work_olid];
                "isbns" := Py.or_else (Py.kwarg kw "isbns" PNone) (PList []);
                "oclc" := Py.or_else (Py.kwarg kw "oclc" PNone) (PList []);
                "lccn" := Py.or_else (Py.kwarg kw "lccn" PNone) (PList []);
                "goodreads" :=
                  Py.or_else (Py.kwarg kw "id_goodreads" PNone) (PList []);
                "librarything" :=
                  Py.or_else (Py.kwarg kw "id_librarything" PNone)
                    (PList []) ]} |})))
  end.

(** The list comprehension that builds one [Document] per item of
    [docs], each item unpacked into keyword arguments, first to last. *)
Fixpoint documents (items : list pyval) : outcome (list Document) :=
  match items with
  | [] => Return []
  | doc :: rest =>
      obind (Py.as_kwargs doc) (fun kw =>
      obind (Document_init kw) (fun d =>
      obind (documents rest) (fun ds => Return (d :: ds))))
  end.

(** [Results.__init__], called with the keyword arguments [kw]; the
    defaults are [start=0], [num_found=0], [docs=None].  A keyword named
    [self] is a second value for the instance: TypeError. *)
Definition init (kw : gmap string pyval) : outcome t :=
  match kw !! "self" with
  | Some _ => Raise TypeError
  | None =>
      obind (Py.iter (Py.kwarg kw "docs" PNone)) (fun items =>
      obind (documents items) (fun ds =>
      Return {| start := Py.kwarg kw "start" (PInt 0);
                num_found := Py.kwarg kw "num_found" (PInt 0);
                docs := ds |}))
  end.

(** The property [first]: [None] when there is no document. *)
Definition first (r : t) : option Document := head (docs r).

Definition to_book (d : Document) : outcome book.Book :=
  obind (if Py.truthy (publishers d) then Py.getitem0 (publishers d)
         else Return (PStr "")) (fun publisher =>
  book.Book_kwargs
    {[ "title" := title d;
       "subtitle" := subtitle d;
       "identifiers" := PDict (identifiers d);
       "authors" := PList (authors d);
       "publisher" := publisher;
       "publish_date" := first_publish_year d ]}).

End Results.

Definition get_book_by_metadata (self : OpenLibrary) (title author : pyval)
  : M (option book.Book) :=
  let! t := lift (Py.format_s title) in
  let url0 := base_url self +:+ "/search.json?title=" +:+ t in
  let! url :=
    (if Py.truthy author
     then let! a := lift (Py.format_s author) in
          ret (url0 +:+ "&author=" +:+ a)
     else ret url0) in
  let! response :=
    with_backoff "Error retrieving metadata for book: %s"
      (http_get self url) in
  let! results :=
    except_ValueError
      (let! j := lift (resp_json response) in
       let! kw := lift (Py.as_kwargs j) in
       let! r := lift (Results.init kw) in
       ret (Some r))
      (fun e => emit (EvLogException e) ;;; ret None) in
  match results with
  | None => ret None
  | Some r =>
      if Py.truthy (Results.num_found r) then
        match Results.first r with
        | Some d => let! b := lift (Results.to_book d) in ret (Some b)
        | None => raise AttributeError
        end
      else ret None
  end.

(** [[Author(name=author['name'], olid=...) for author in authors]]. *)
Fixpoint convert_authors (authors : list pyval) : outcome (list pyval) :=
  match authors with
  | [] => Return []
  | author :: rest =>
      obind (Py.getitem author "name") (fun n =>
      obind (Py.getitem author "url") (fun u =>
      obind (Py.as_text u) (fun u' =>
      obind (_extract_olid_from_url u' "authors") (fun o =>
      obind (convert_authors rest) (fun r =>
      Return (book.Author n (Py.of_option o) :: r))))))
  end.

(** [response.json()] inside [try: ... except ValueError as e:
    logger.exception(e); return None]: [None] stands for the early
    return. *)
Definition json_or_none (r : response) : M (option pyval) :=
  except_ValueError
    (let! j := lift (resp_json r) in ret (Some j))
    (fun e => emit (EvLogException e) ;;; ret None).

Definition get_book_by_isbn (self : OpenLibrary) (isbn : string)
  : M (option book.Book) :=
  let url :=
    base_url self +:+ "/api/books?bibkeys=ISBN:" +:+ isbn
      +:+ "&format=json&jscmd=data" in
  let! response :=
    with_backoff "Error retrieving OpenLibrary book by isbn: %s"
      (http_get self url) in
  let! parsed := json_or_none response in
  match parsed with
  | None => ret None
  | Some result =>
      let isbn_key := "ISBN:" +:+ isbn in
      let! present := lift (Py.contains isbn_key result) in
      if present : bool then
        let! edition := lift (Py.getitem result isbn_key) in
        let! key := lift (Py.getitem edition "key") in
        emit (EvPrint key) ;;;
        match edition with
        | PDict d =>
            (* the right-hand side first: edition.pop('key') *)
            let d1 := delete "key" d in
            let! u := lift (Py.as_text key) in
            let! olid := lift (_extract_olid_from_url u "books") in
            (* then the target edition['identifiers'], and the store *)
            let! ids := lift (Py.getitem (PDict d1) "identifiers") in
            let! ids' :=
              lift (Py.setitem ids "olid" (PList [Py.of_option olid])) in
            let d2 := <["identifiers" := ids']> d1 in
            (* authors = edition.pop('authors', []) *)
            let authors := default (PList []) (d2 !! "authors") in
            let d3 := delete "authors" d2 in
            let! items := lift (Py.iter authors) in
            let! converted := lift (convert_authors items) in
            let d4 := <["authors" := PList converted]> d3 in
            let! b := lift (book.Book_kwargs d4) in
            ret (Some b)
        | _ => raise TypeError
        end
      else ret None
  end.

Definition get_olid_by_isbn (self : OpenLibrary) (isbn : string)
  : M (option string) :=
  let url :=
    base_url self +:+ "/api/books?bibkeys=ISBN:" +:+ isbn
      +:+ "&format=json" in
  let! response :=
    with_backoff "Error retrieving OpenLibrary ID by isbn: %s"
      (http_get self url) in
  let! parsed := json_or_none response in
  match parsed with
  | None => ret None
  | Some results =>
      let isbn_key := "ISBN:" +:+ isbn in
      let! present := lift (Py.contains isbn_key results) in
      if present : bool then
        let! entry := lift (Py.getitem results isbn_key) in
        let! book_url := lift (Py.get entry "info_url" (PStr "")) in
        let! u := lift (Py.as_text book_url) in
        lift (_extract_olid_from_url u "books")
      else ret None
  end.

(** ** Notions the statements below use *)

(** The events of [k] failed attempts at [r], [tries] attempts having
    come before: each request is followed by the wait before the next. *)
Fixpoint failed_attempts (r : request) (tries k : nat) : trace :=
  match k with
  | O => []
  | S k' =>
      EvRequest r :: EvSleep (backoff.expo tries)
        :: failed_attempts r (S tries) k'
  end.

(** A resource type that holds no regular-expression metacharacter. *)
Fixpoint literal (ty : string) : bool :=
  match ty with
  | EmptyString => true
  | String c ty' => negb (Re.metachar c) && literal ty'
  end.

Definition starts_alnum (s : string) : bool :=
  match s with
  | String c _ => Text.is_alnum c
  | EmptyString => false
  end.

(** [s] begins with [/ty/id], where [id] is the whole run of
    alphanumerics found there. *)
Definition segment_at (ty s id : string) : Prop :=
  exists rest,
    s = "/" +:+ ty +:+ "/" +:+ id +:+ rest
    /\ id <> "" /\ Text.all_alnum id = true /\ starts_alnum rest = false.

(** No [/ty/<alnum-id>] begins at any position of [s]. *)
Definition segment_free (ty s : string) : Prop :=
  forall pre suf id, s = pre +:+ suf -> ~ segment_at ty suf id.

(** The POST that creates a book. *)
Definition is_creation_request (self : OpenLibrary) (ev : event) : bool :=
  match ev with
  | EvRequest r =>
      match rq_method r with
      | POST => String.eqb (rq_url r) (creation_url self)
      | GET => false
      end
  | _ => false
  end.

(** The kinds of [VALID_IDS] before [k] are no keys of [d]. *)
Definition first_kind_present (d : gmap string pyval) (k : string) : Prop :=
  exists pre post,
    VALID_IDS = pre ++ k :: post
    /\ Forall (fun k' => d !! k' = None) pre
    /\ is_Some (d !! k).

(** ** Sample inputs *)

Definition json_response (j : pyval) : response :=
  mkResponse "" [] (Return j).

(** A client whose every request is answered by [resp]. *)
Definition answering (resp : response) : OpenLibrary :=
  {| base_url := "https://openlibrary.org";
     net := fun _ _ => Return resp |}.

(** A client whose first [k] requests time out. *)
Definition flaky (k : nat) (resp : response) : OpenLibrary :=
  {| base_url := "https://openlibrary.org";
     net := fun n _ =>
              if n <? k then Raise (RequestException "timed out")
              else Return resp |}.

(** A client whose network is down. *)
Definition unreachable : OpenLibrary :=
  {| base_url := "https://openlibrary.org";
     net := fun _ _ => Raise (RequestException "connection refused") |}.

Definition login_request : request :=
  mkRequest POST "https://openlibrary.org/account/login"
    (JsonText (PDict ∅)) [("Content-Type", "application/json")].

(** A book with one identifier kind, of the values [vals], and no
    author. *)
Definition book_with (kind : string) (vals : list pyval) : book.Book :=
  book.mkBook (PStr "T") (PStr "")
    (PDict {[ kind := PList vals ]}) (PList []) (PStr "P") (PStr "2000") ∅.

(** [m] only adds events that satisfy [P], and what it returns, if it
    returns, satisfies [Q]. *)
Definition keeps {A} (P : event -> Prop) (Q : A -> Prop) (m : M A) : Prop :=
  forall tr,
    exists evs,
      snd (m tr) = tr ++ evs /\ Forall P evs
      /\ match fst (m tr) with Return a => Q a | _ => True end.

(** A record of the author autocomplete: a name and a key. *)
Definition candidate (n k : string) : pyval :=
  PDict {[ "name" := PStr n; "key" := PStr k ]}.

(** Two records whose names both equal the query "Mike Smith" once
    lowercased and trimmed. *)
Definition mike_smiths : pyval :=
  PList [candidate "Mike Smith" "/authors/OL1A";
         candidate " mike smith " "/authors/OL2A"].

(** The atoms of a type that holds no metacharacter. *)
Fixpoint lits (ty : string) : list Re.atom :=
  match ty with
  | EmptyString => []
  | String c ty' => Re.Lit c :: lits ty'
  end.

(** The keyword arguments of a search document with two author names and
    one author key. *)
Definition two_names_one_key : gmap string pyval :=
  {[ "key" := PStr "/works/OL1W";
     "author_name" := PList [PStr "A"; PStr "B"];
     "author_key" := PList [PStr "K1"] ]}.

(** The record of a books-by-ISBN answer, with the fields [edition]. *)
Definition isbn_body (edition : gmap string pyval) : pyval :=
  PDict {[ "ISBN:123" := PDict edition ]}.

Definition sample_edition : gmap string pyval :=
  {[ "key" := PStr "/books/OL1M";
     "authors" :=
       PList [PDict {[ "name" := PStr "A"; "url" := PStr "/authors/OL2A" ]}];
     "title" := PStr "X" ]}.

Definition isbn_data_url (self : OpenLibrary) (isbn : string) : string :=
  base_url self +:+ "/api/books?bibkeys=ISBN:" +:+ isbn
    +:+ "&format=json&jscmd=data".

Definition isbn_url (self : OpenLibrary) (isbn : string) : string :=
  base_url self +:+ "/api/books?bibkeys=ISBN:" +:+ isbn +:+ "&format=json".

(** An answer whose body is not JSON. *)
Definition not_json : response :=
  mkResponse "" [] (Raise (ValueError "No JSON object could be decoded")).

(** An answer that sets a session cookie. *)
Definition with_cookie : response :=
  mkResponse "https://openlibrary.org/account/login" ["set-cookie"]
    (Return PNone).

(** The pattern [p] matches at none of the positions of [pre] in
    [pre +:+ suf]. *)
Fixpoint earlier_free (p : list Re.atom) (pre suf : string) : bool :=
  match pre with
  | EmptyString => true
  | String c pre' =>
      match Re.match_here p (String c pre' +:+ suf) with
      | Some _ => false
      | None => earlier_free p pre' suf
      end
  end.

(** ** OpenLibrary.__init__ *)

(** [s.rstrip('/')]. *)
Fixpoint rstrip_slash (s : string) : string :=
  match s with
  | EmptyString => EmptyString
  | String c s' =>
      match rstrip_slash s' with
      | EmptyString =>
          if Ascii.eqb c "/"%char then EmptyString else String c EmptyString
      | r => String c r
      end
  end.

(** What [Config().get_config()['openlibrary']] holds: the configured
    URL and the stored credentials, if any (olclient/config.py is not
    part of the sources; its result is a parameter of the constructor).
    A credentials tuple is given by its fields, as [_asdict()] lists
    them. *)
Record ol_config : Type :=
  { config_url : string;
    config_credentials : option (gmap string pyval) }.

(** The object the constructor leaves: the client, and the user name
    when it logged in. *)
Record instance : Type :=
  { this : OpenLibrary;
    username : option pyval }.

(** [credentials.username]. *)
Definition username_of (credentials : gmap string pyval) : outcome pyval :=
  match credentials !! "username" with
  | Some u => Return u
  | None => Raise AttributeError
  end.

(** [OpenLibrary.__init__(base_url=None, credentials=None)] over the
    network [network] and the configuration [cfg]. *)
Definition OpenLibrary_init (network : transport) (cfg : ol_config)
  (base_url : option string) (credentials : option (gmap string pyval))
  : M instance :=
  let default_base_url := rstrip_slash (config_url cfg) in
  let url :=
    match base_url with
    | Some (String c s) => String c s
    | _ => default_base_url
    end in
  let self := Build_OpenLibrary url network in
  let credentials :=
    match credentials with
    | Some c => if Py.truthy (PDict c) then Some c else config_credentials cfg
    | None => config_credentials cfg
    end in
  match credentials with
  | Some c =>
      if Py.truthy (PDict c) then
        let! u := lift (username_of c) in
        login self c ;;;
        ret {| this := self; username := Some u |}
      else ret {| this := self; username := None |}
  | None => ret {| this := self; username := None |}
  end.

(** ** Requests of the operations *)

Definition login_rq (self : OpenLibrary) (credentials : gmap string pyval)
  : request :=
  mkRequest POST (base_url self +:+ "/account/login")
    (JsonText (PDict credentials)) [("Content-Type", "application/json")].

Definition authors_url (self : OpenLibrary) (n : string) : string :=
  base_url self +:+ "/authors/_autocomplete?q=" +:+ n +:+ "&limit=" +:+ "1".

Definition olid_url (self : OpenLibrary) (olid : string) : string :=
  base_url self +:+ "/books/" +:+ olid +:+ ".json".


(** ** Further notions the statements use *)

(** [c] does not occur in [s]. *)
Fixpoint lacks (c : ascii) (s : string) : bool :=
  match s with
  | EmptyString => true
  | String c' s' => negb (Ascii.eqb c' c) && lacks c s'
  end.

(** [sep.join(l)]. *)
Fixpoint join_with (sep : ascii) (l : list string) : string :=
  match l with
  | [] => EmptyString
  | x :: rest =>
      match rest with
      | [] => x
      | _ => x +:+ String sep (join_with sep rest)
      end
  end.

Definition ends_with (c : ascii) (s : string) : Prop :=
  exists p, s = p +:+ String c EmptyString.

(** The name as the lookup compares it: lowercased, then trimmed. *)
Definition normalized (s : string) : string := Text.strip (Text.lower s).

(** The first record whose normalized name is [q]. *)
Definition first_match (q : string) (cands : list (string * string))
  : option (string * string) :=
  List.find (fun c => String.eqb q (normalized c.1)) cands.

(** The author key [create_book] derives from the identifier the lookup
    gave: the new-author marker when there is none or it is empty. *)
Definition author_key_of (r : option string) : string :=
  match r with
  | Some (String c o) => "/authors/" +:+ String c o
  | _ => "__new__"
  end.

(** The fields [_create_book] assembles. *)
Definition payload_of (title author_name : pyval) (author_key : string)
  (publish_date publisher : pyval) (id_name : string) (id_value : pyval)
  : gmap string pyval :=
  {[ "title" := title;
     "author_name" := author_name;
     "author_key" := PStr author_key;
     "publish_date" := publish_date;
     "publisher" := publisher;
     "id_name" := PStr id_name;
     "id_value" := id_value;
     "_save" := PStr "" ]}.

(** The request that creates a book from the fields [data]. *)
Definition creation_rq (self : OpenLibrary) (data : gmap string pyval)
  : request :=
  mkRequest POST (creation_url self) (Form data) [].

(** A book by one author, of name [n], with an ISBN-10. *)
Definition book_by (n : string) : book.Book :=
  book.mkBook (PStr "T") (PStr "")
    (PDict {[ "isbn_10" := PList [PStr "3570028364"] ]})
    (PList [book.Author (PStr n) PNone]) (PStr "Bertelsmann") (PStr "1982")
    ∅.

(** An answer that redirected to [url]. *)
Definition redirected_to (url : string) : response :=
  mkResponse url [] (Return PNone).

(** The name [create_book] looks up: that of the primary author, the
    empty string when there is none. *)
Definition author_name_of (primary_author : pyval) : outcome pyval :=
  if Py.truthy primary_author then book.name_of primary_author
  else Return (PStr "").

(** A search document with a title, two ISBNs and no LCCN. *)
Definition doc_with_isbns : gmap string pyval :=
  {[ "key" := PStr "/works/OL1W";
     "title" := PStr "Dune";
     "isbns" := PList [PStr "0441013597"; PStr "9780441013593"] ]}.


(** A record of the authors array of a book: a name and a URL. *)
Definition author_record (a : pyval * string) : pyval :=
  PDict {[ "name" := a.1; "url" := PStr a.2 ]}.

(** The author made of such a record. *)
Definition author_of_record (a : pyval * string) : pyval :=
  book.Author a.1 (Py.of_option (Re.search (lits "authors") a.2)).

(** An edition record without authors whose key is no book path. *)
Definition bare_edition : gmap string pyval :=
  {[ "key" := PStr "/works/OL1W";
     "identifiers" := PDict {[ "isbn_10" := PList [PStr "0441013597"] ]};
     "title" := PStr "Dune" ]}.


(** [n] slashes. *)
Fixpoint slashes (n : nat) : string :=
  match n with
  | O => EmptyString
  | S n' => String "/"%char (slashes n')
  end.

(** The parsed body [j] is a container that does not hold the key [k]:
    an object without that key, a list none of whose items is [k], or a
    string in which [k] does not occur. *)
Definition without_key (k : string) (j : pyval) : Prop :=
  match j with
  | PDict d => d !! k = None
  | PList l => PStr k ∉ l
  | PStr s => forall pre suf, s <> pre +:+ k +:+ suf
  | _ => False
  end.

(** The parsed body [j] is null, a boolean or an integer. *)
Definition no_container (j : pyval) : Prop :=
  match j with
  | PNone | PBool _ | PInt _ => True
  | _ => False
  end.

(** A book without author whose identifiers are the mapping [ids]. *)
Definition book_of (ids : gmap string pyval) : book.Book :=
  book.mkBook (PStr "T") (PStr "") (PDict ids) (PList []) (PStr "P")
    (PStr "2000") ∅.

(** Identifiers that list an LCCN and an ISBN-13, and identifiers that
    list all three kinds. *)
Definition isbn13_and_lccn : gmap string pyval :=
  {[ "lccn" := PList [PStr "2001012345"];
     "isbn_13" := PList [PStr "9780441013593"] ]}.

Definition all_three_kinds : gmap string pyval :=
  {[ "lccn" := PList [PStr "2001012345"];
     "isbn_13" := PList [PStr "9780441013593"];
     "isbn_10" := PList [PStr "0441013597"] ]}.

(** * Properties *)

(** ** Traces *)

Lemma requests_sent_app (tr l : trace) :
  requests_sent (tr ++ l) = requests_sent tr + requests_sent l.
Proof. unfold requests_sent. by rewrite List.filter_app, length_app. Qed.

Lemma giveups_app (tr l : trace) :
  giveups (tr ++ l) = giveups tr + giveups l.
Proof. unfold giveups. by rewrite List.filter_app, length_app. Qed.

Lemma requests_sent_failed_attempts r tries k :
  requests_sent (failed_attempts r tries k) = k.
Proof.
  revert tries. induction k as [|k IH]; intros tries; [done|].
  change (failed_attempts r tries (S k))
    with ([EvRequest r; EvSleep (backoff.expo tries)]
            ++ failed_attempts r (S tries) k).
  rewrite requests_sent_app, IH. reflexivity.
Qed.

Lemma giveups_failed_attempts r tries k :
  giveups (failed_attempts r tries k) = 0.
Proof.
  revert tries. induction k as [|k IH]; intros tries; [done|].
  change (failed_attempts r tries (S k))
    with ([EvRequest r; EvSleep (backoff.expo tries)]
            ++ failed_attempts r (S tries) k).
  rewrite giveups_app, IH. reflexivity.
Qed.

(** ** The retry loop around one request *)

Lemma retry_unfold {A} w exc max g (t : M A) fuel tries tr :
  backoff.retry w exc max g t (S fuel) tries tr
  = match t tr with
    | (Raise e, tr') =>
        if exc e then
          if S tries =? max then (g e ;;; raise e) tr'
          else (emit (EvSleep (w tries)) ;;;
                backoff.retry w exc max g t fuel (S tries)) tr'
        else (Raise e, tr')
    | r => r
    end.
Proof. reflexivity. Qed.

Lemma bind_emit {B} ev (k : unit -> M B) tr :
  bind (emit ev) k tr = k tt (tr ++ [ev]).
Proof. reflexivity. Qed.

Ltac events_ok :=
  repeat (apply Forall_cons_2; [by eauto|]); apply Forall_nil_2.

Section retry_send.
Variable self : OpenLibrary.
Variable r : request.
Variable msg : string.
Variable exc : exn -> bool.
Variable max : nat.

Let loop := backoff.retry (A := response) backoff.expo exc max
              (fun _ => emit (EvGiveUp msg)) (send self r).

Lemma requests_after_wait (tr : trace) n :
  requests_sent ((tr ++ [EvRequest r]) ++ [EvSleep n])
  = S (requests_sent tr).
Proof. rewrite !requests_sent_app. cbn. lia. Qed.

(** [k] retriable failures, then an answer, within the allowed tries. *)
Lemma retry_recovers k : forall fuel tries tr resp,
  (forall i, i < k ->
     exists e, net self (requests_sent tr + i) r = Raise e
               /\ exc e = true) ->
  net self (requests_sent tr + k) r = Return resp ->
  tries + k < max -> k < fuel ->
  loop fuel tries tr
  = (Return resp, tr ++ failed_attempts r tries k ++ [EvRequest r]).
Proof.
  induction k as [|k IH]; intros fuel tries tr resp Hfail Hok Hmax Hfuel.
  - destruct fuel as [|fuel]; [lia|].
    unfold loop. rewrite retry_unfold. unfold send.
    rewrite Nat.add_0_r in Hok. rewrite Hok. reflexivity.
  - destruct fuel as [|fuel]; [lia|].
    destruct (Hfail 0 ltac:(lia)) as (e & He & Hexc).
    rewrite Nat.add_0_r in He.
    unfold loop. rewrite retry_unfold. fold loop.
    unfold send at 1. rewrite He, Hexc.
    destruct (Nat.eqb_spec (S tries) max) as [Heq|_]; [lia|].
    rewrite bind_emit.
    rewrite (IH fuel (S tries) _ resp).
    + f_equal. rewrite <- !app_assoc. reflexivity.
    + intros i Hi. rewrite requests_after_wait.
      replace (S (requests_sent tr) + i) with (requests_sent tr + S i) by lia.
      apply Hfail. lia.
    + rewrite requests_after_wait.
      replace (S (requests_sent tr) + k) with (requests_sent tr + S k) by lia.
      exact Hok.
    + lia.
    + lia.
Qed.

(** Retriable failures on every allowed try. *)
Lemma retry_gives_up k : forall fuel tries tr (errs : nat -> exn),
  (forall i, i <= k ->
     net self (requests_sent tr + i) r = Raise (errs i)
     /\ exc (errs i) = true) ->
  tries + S k = max -> k < fuel ->
  loop fuel tries tr
  = (Raise (errs k),
     tr ++ failed_attempts r tries k ++ [EvRequest r; EvGiveUp msg]).
Proof.
  induction k as [|k IH]; intros fuel tries tr errs Hfail Hmax Hfuel.
  - destruct fuel as [|fuel]; [lia|].
    destruct (Hfail 0 ltac:(lia)) as (He & Hexc).
    rewrite Nat.add_0_r in He.
    unfold loop. rewrite retry_unfold.
    unfold send at 1. rewrite He, Hexc.
    destruct (Nat.eqb_spec (S tries) max) as [_|Hne]; [|lia].
    rewrite bind_emit. unfold raise. rewrite <- app_assoc. reflexivity.
  - destruct fuel as [|fuel]; [lia|].
    destruct (Hfail 0 ltac:(lia)) as (He & Hexc).
    rewrite Nat.add_0_r in He.
    unfold loop. rewrite retry_unfold. fold loop.
    unfold send at 1. rewrite He, Hexc.
    destruct (Nat.eqb_spec (S tries) max) as [Heq|_]; [lia|].
    rewrite bind_emit.
    rewrite (IH fuel (S tries) _ (fun i => errs (S i))).
    + f_equal. rewrite <- !app_assoc. reflexivity.
    + intros i Hi. rewrite requests_after_wait.
      replace (S (requests_sent tr) + i) with (requests_sent tr + S i) by lia.
      apply Hfail. lia.
    + lia.
    + lia.
Qed.

(** Whatever the network does, the loop adds at most [fuel] requests,
    and nothing but requests of [r], waits and the give-up record. *)
Lemma retry_events : forall fuel tries tr,
  exists evs,
    snd (loop fuel tries tr) = tr ++ evs
    /\ requests_sent evs <= fuel
    /\ Forall (fun ev => ev = EvRequest r \/ (exists n, ev = EvSleep n)
                         \/ ev = EvGiveUp msg) evs.
Proof.
  induction fuel as [|fuel IH]; intros tries tr.
  - exists []. unfold loop. simpl. rewrite app_nil_r. auto.
  - unfold loop. rewrite retry_unfold. fold loop. unfold send at 1.
    destruct (net self (requests_sent tr) r) as [resp|e|].
    + exists [EvRequest r]. simpl. repeat split; [cbn; lia|].
      events_ok.
    + destruct (exc e).
      * destruct (S tries =? max).
        -- exists [EvRequest r; EvGiveUp msg]. rewrite bind_emit.
           unfold raise. simpl.
           rewrite <- app_assoc. repeat split; [cbn; lia|].
           events_ok.
        -- rewrite bind_emit.
           destruct (IH (S tries)
                       ((tr ++ [EvRequest r]) ++ [EvSleep (backoff.expo tries)]))
             as (evs & Heq & Hn & Hall).
           exists (EvRequest r :: EvSleep (backoff.expo tries) :: evs).
           rewrite Heq. rewrite <- !app_assoc. simpl. repeat split.
           ++ change (EvRequest r :: EvSleep (backoff.expo tries) :: evs)
                with ([EvRequest r; EvSleep (backoff.expo tries)] ++ evs).
              rewrite requests_sent_app. cbn. lia.
           ++ constructor; [auto|]. constructor; [eauto|]. exact Hall.
      * exists [EvRequest r]. simpl. repeat split; [cbn; lia|].
        events_ok.
    + exists [EvRequest r]. simpl. repeat split; [cbn; lia|].
      events_ok.
Qed.



End retry_send.

(** ** The retry policy *)

(** C5 (retry policy, modelled from the spec).  Around one request the
    policy of [BACKOFF_KWARGS] makes at most 5 attempts.  If the first
    [k < 5] attempts fail with a [RequestException] and the next one is
    answered (so also after 4 failures), the call returns that answer
    after waits of 1, 2, 4, ... and the give-up callback never runs.  If
    every attempt fails with a [RequestException], exactly 5 requests
    are made, the callback runs exactly once and the error of the last
    attempt reaches the caller. *)
Theorem retry_policy_five_attempts
  (self : OpenLibrary) (r : request) (msg : string) (tr : trace) :
  (forall k resp,
     k < 5 ->
     (forall i, i < k ->
        exists m, net self (requests_sent tr + i) r
                  = Raise (RequestException m)) ->
     net self (requests_sent tr + k) r = Return resp ->
     let tr' := tr ++ failed_attempts r 0 k ++ [EvRequest r] in
     with_backoff msg (send self r) tr = (Return resp, tr')
     /\ giveups tr' = giveups tr
     /\ requests_sent tr' = requests_sent tr + S k)
  /\ (forall errs : nat -> string,
        (forall i, net self (requests_sent tr + i) r
                   = Raise (RequestException (errs i))) ->
        let tr' :=
          tr ++ failed_attempts r 0 4 ++ [EvRequest r; EvGiveUp msg] in
        with_backoff msg (send self r) tr
        = (Raise (RequestException (errs 4)), tr')
        /\ giveups tr' = giveups tr + 1
        /\ requests_sent tr' = requests_sent tr + 5)
  /\ requests_sent (snd (with_backoff msg (send self r) tr))
     <= requests_sent tr + 5.
Proof.
  split; [|split].
  - intros k resp Hk Hfail Hok tr'. subst tr'. split; [|split].
    + unfold with_backoff, backoff.on_exception. cbn [wait_gen exception max_tries BACKOFF_KWARGS].
      apply retry_recovers; [|done|lia|lia].
      intros i Hi. destruct (Hfail i Hi) as [m Hm]. eauto.
    + rewrite !giveups_app, giveups_failed_attempts. cbn. lia.
    + rewrite !requests_sent_app, requests_sent_failed_attempts. cbn. lia.
  - intros errs Hfail tr'. subst tr'. split; [|split].
    + unfold with_backoff, backoff.on_exception. cbn [wait_gen exception max_tries BACKOFF_KWARGS].
      apply (retry_gives_up self r msg is_RequestException 5 4 5 0 tr
               (fun i => RequestException (errs i))); [|lia|lia].
      intros i _. split; [apply Hfail|done].
    + rewrite !giveups_app. cbn. lia.
    + rewrite !requests_sent_app. cbn. lia.
  - unfold with_backoff, backoff.on_exception. cbn [wait_gen exception max_tries BACKOFF_KWARGS].
    destruct (retry_events self r msg is_RequestException 5 5 0 tr)
      as (evs & Heq & Hn & _).
    rewrite Heq, requests_sent_app. lia.
Qed.

(** ** Choosing the primary identifier *)

Lemma contains_dict (d : gmap string pyval) k :
  Py.contains k (PDict d) = Return (bool_decide (is_Some (d !! k))).
Proof. reflexivity. Qed.

Lemma scan_ids_miss (d : gmap string pyval) k rest :
  d !! k = None ->
  scan_ids (PDict d) (k :: rest) = scan_ids (PDict d) rest.
Proof.
  intros H. cbn [scan_ids]. rewrite contains_dict, H.
  rewrite bool_decide_eq_false_2; [reflexivity|].
  intros [? ?]; discriminate.
Qed.

Lemma scan_ids_hit (d : gmap string pyval) k rest l :
  d !! k = Some l ->
  scan_ids (PDict d) (k :: rest)
  = obind (Py.getitem0 l) (fun v => Return (Some (k, v))).
Proof.
  intros H. cbn [scan_ids]. rewrite contains_dict, H.
  rewrite bool_decide_eq_true_2 by eauto.
  cbn [obind Py.getitem]. rewrite H. reflexivity.
Qed.

Lemma scan_ids_skip (d : gmap string pyval) pre keys :
  Forall (fun k' => d !! k' = None) pre ->
  scan_ids (PDict d) (pre ++ keys) = scan_ids (PDict d) keys.
Proof.
  induction 1 as [|k pre Hk _ IH]; [reflexivity|].
  cbn [app]. rewrite scan_ids_miss by done. exact IH.
Qed.

Lemma scan_ids_none (d : gmap string pyval) keys :
  Forall (fun k' => d !! k' = None) keys ->
  scan_ids (PDict d) keys = Return None.
Proof.
  intros H. rewrite <- (app_nil_r keys). by rewrite scan_ids_skip.
Qed.

(** The kind the scan stops at, and what it finds there. *)
Lemma scan_ids_first (d : gmap string pyval) k l :
  first_kind_present d k -> d !! k = Some l ->
  scan_ids (PDict d) VALID_IDS
  = obind (Py.getitem0 l) (fun v => Return (Some (k, v))).
Proof.
  intros (pre & post & Heq & Hpre & _) Hl.
  rewrite Heq, scan_ids_skip by done. by apply scan_ids_hit.
Qed.

Lemma valid_kind_nonempty k : k ∈ VALID_IDS -> Py.truthy (PStr k) = true.
Proof.
  unfold VALID_IDS. rewrite !elem_of_cons, elem_of_nil.
  intros [->|[->|[->|[]]]]; reflexivity.
Qed.

Lemma first_kind_present_valid d k : first_kind_present d k -> k ∈ VALID_IDS.
Proof.
  intros (pre & post & Heq & _). rewrite Heq.
  apply elem_of_app. right. apply elem_of_cons. by left.
Qed.

(** The scan over a dictionary, by cases on what it holds. *)
Lemma scan_ids_cases (d : gmap string pyval) :
  (Forall (fun k' => d !! k' = None) VALID_IDS
   /\ scan_ids (PDict d) VALID_IDS = Return None)
  \/ exists k l,
       first_kind_present d k /\ d !! k = Some l
       /\ scan_ids (PDict d) VALID_IDS
          = obind (Py.getitem0 l) (fun v => Return (Some (k, v))).
Proof.
  destruct (d !! "isbn_10") as [l|] eqn:H10.
  { right. exists "isbn_10", l. split; [|split; [done|]].
    - exists [], ["isbn_13"; "lccn"]. by repeat split; eauto.
    - apply scan_ids_first; [|done].
      exists [], ["isbn_13"; "lccn"]. by repeat split; eauto. }
  destruct (d !! "isbn_13") as [l|] eqn:H13.
  { right. exists "isbn_13", l. split; [|split; [done|]].
    - exists ["isbn_10"], ["lccn"]. repeat split; eauto.
    - apply scan_ids_first; [|done].
      exists ["isbn_10"], ["lccn"]. repeat split; eauto. }
  destruct (d !! "lccn") as [l|] eqn:Hl.
  { right. exists "lccn", l. split; [|split; [done|]].
    - exists ["isbn_10"; "isbn_13"], []. repeat split; eauto.
    - apply scan_ids_first; [|done].
      exists ["isbn_10"; "isbn_13"], []. repeat split; eauto. }
  left. assert (Forall (fun k' => d !! k' = None) VALID_IDS)
    by (unfold VALID_IDS; eauto).
  split; [done|]. by apply scan_ids_none.
Qed.

(** Where a kind that is the first one present can stand. *)
Lemma first_kind_present_inv d k :
  first_kind_present d k ->
  (k = "isbn_10")
  \/ (k = "isbn_13" /\ d !! "isbn_10" = None)
  \/ (k = "lccn" /\ d !! "isbn_10" = None /\ d !! "isbn_13" = None).
Proof.
  intros (pre & post & Heq & Hp & Hs). unfold VALID_IDS in Heq.
  destruct pre as [|a pre]; simplify_eq/=; [by left|].
  destruct pre as [|a' pre]; simplify_eq/=.
  { right; left. by inversion Hp. }
  destruct pre as [|a'' pre]; simplify_eq/=.
  { right; right. inversion Hp as [|? ? ? Hp']; subst. by inversion Hp'. }
  destruct pre; simplify_eq/=.
Qed.

(** Two kinds that are both the first one present are the same kind. *)
Lemma first_kind_present_unique d k1 k2 :
  first_kind_present d k1 -> first_kind_present d k2 -> k1 = k2.
Proof.
  intros H1 H2.
  pose proof H1 as (_ & _ & _ & _ & Hs1).
  pose proof H2 as (_ & _ & _ & _ & Hs2).
  destruct (first_kind_present_inv _ _ H1) as [->|[[-> A1]|[-> [A1 B1]]]];
    destruct (first_kind_present_inv _ _ H2) as [->|[[-> A2]|[-> [A2 B2]]]];
    try reflexivity;
    repeat match goal with
           | H : is_Some (?d !! ?k), H' : ?d !! ?k = None |- _ =>
               rewrite H' in H; destruct H; discriminate
           end.
Qed.

Lemma create_book_no_identifier self b debug tr e :
  get_primary_identifier b = Raise e ->
  create_book self b debug tr = (Raise e, tr).
Proof. intros H. unfold create_book, bind, lift. by rewrite H. Qed.

Lemma get_primary_identifier_none b (d : gmap string pyval) :
  book.identifiers b = PDict d ->
  Forall (fun k' => d !! k' = None) VALID_IDS ->
  get_primary_identifier b = Raise (ValueError "ISBN10/13 or LCCN required").
Proof.
  intros Hd Hn. unfold get_primary_identifier.
  by rewrite Hd, scan_ids_none.
Qed.

Lemma get_primary_identifier_found b (d : gmap string pyval) k l :
  book.identifiers b = PDict d ->
  first_kind_present d k -> d !! k = Some l ->
  get_primary_identifier b
  = obind (Py.getitem0 l) (fun v =>
      if Py.truthy v then Return (k, v)
      else Raise (ValueError "ISBN10/13 or LCCN required")).
Proof.
  intros Hd Hk Hl. unfold get_primary_identifier.
  rewrite Hd, (scan_ids_first d k l) by done.
  destruct (Py.getitem0 l) as [v| |]; cbn [obind]; [|done..].
  by rewrite (valid_kind_nonempty k (first_kind_present_valid d k Hk)).
Qed.

(** Without an author no request is made, and the dry run gives the
    fields at once. *)
Lemma create_book_debug_no_author self b tr k v :
  get_primary_identifier b = Return (k, v) ->
  k ∈ VALID_IDS ->
  book.authors b = PList [] ->
  create_book self b true tr
  = (Return (Payload
       {[ "title" := book.title b;
          "author_name" := PStr "";
          "author_key" := PStr "__new__";
          "publish_date" := book.publish_date b;
          "publisher" := book.publisher b;
          "id_name" := PStr k;
          "id_value" := v;
          "_save" := PStr "" ]}), tr).
Proof.
  intros Hp Hk Ha. unfold create_book, bind at 1, lift at 1. rewrite Hp.
  unfold book.primary_author. rewrite Ha.
  cbn [Py.truthy bind lift ret].
  unfold bind, lift, ret, get_matching_authors_olid, get_matching_authors_by_name,
    _create_book.
  cbn [Py.truthy bind lift ret Py.lower_strip Py.iter first_exact_match].
  rewrite bool_decide_eq_true_2 by done. reflexivity.
Qed.

Lemma getitem0_not_ValueError l e msg :
  Py.getitem0 l = Raise e -> e <> ValueError msg.
Proof.
  destruct l as [| | |[|? ?]|[|? ?]| |]; cbn; intros H; simplify_eq; done.
Qed.

(** C10, as the code has it.  On a book whose identifiers are the
    mapping [d]: when the first kind found in the order isbn_10, isbn_13,
    lccn maps to an empty list, [create_book] raises IndexError, before
    any event; and the ValueError of a missing identifier is raised
    exactly when none of the three kinds is a key of [d], or when the
    first value listed under the first kind found is a falsy one, such
    as the empty string. *)
Theorem primary_identifier_errors (b : book.Book) (d : gmap string pyval) :
  book.identifiers b = PDict d ->
  (forall k,
     first_kind_present d k -> d !! k = Some (PList []) ->
     forall self debug tr,
       create_book self b debug tr = (Raise IndexError, tr))
  /\ (get_primary_identifier b
      = Raise (ValueError "ISBN10/13 or LCCN required")
      <-> (forall k, k ∈ VALID_IDS -> d !! k = None)
          \/ exists k l v,
               first_kind_present d k /\ d !! k = Some l
               /\ Py.getitem0 l = Return v /\ Py.truthy v = false).
Proof.
  intros Hd. split.
  - intros k Hk Hl self debug tr. apply create_book_no_identifier.
    by rewrite (get_primary_identifier_found b d k _ Hd Hk Hl).
  - split.
    + intros Hraise.
      destruct (scan_ids_cases d) as [[Hn _]|(k & l & Hk & Hl & _)].
      * left. intros k Hk. by apply (proj1 (Forall_forall _ _) Hn).
      * right. rewrite (get_primary_identifier_found b d k l Hd Hk Hl) in Hraise.
        destruct (Py.getitem0 l) as [v|e|] eqn:Hg; cbn [obind] in Hraise.
        -- destruct (Py.truthy v) eqn:Hv; [discriminate|].
           exists k, l, v. eauto.
        -- exfalso. injection Hraise as ->.
           by eapply getitem0_not_ValueError.
        -- discriminate.
    + intros [Hnone|(k & l & v & Hk & Hl & Hg & Hv)].
      * apply (get_primary_identifier_none b d Hd).
        apply Forall_forall. intros k Hk. by apply Hnone.
      * rewrite (get_primary_identifier_found b d k l Hd Hk Hl), Hg.
        cbn [obind]. by rewrite Hv.
Qed.

(** A book whose ISBN-10 list is empty, and one whose ISBN-10 is the
    empty string. *)
Lemma primary_identifier_errors_witness :
  create_book unreachable (book_with "isbn_10" []) false []
  = (Raise IndexError, [])
  /\ get_primary_identifier (book_with "isbn_10" [PStr ""])
     = Raise (ValueError "ISBN10/13 or LCCN required").
Proof.
  split.
  - apply (proj1 (primary_identifier_errors (book_with "isbn_10" [])
                    {[ "isbn_10" := PList [] ]} eq_refl) "isbn_10");
      [|reflexivity].
    exists [], ["isbn_13"; "lccn"].
    split; [reflexivity|]. split; [constructor|]. by eexists.
  - apply (proj2 (primary_identifier_errors (book_with "isbn_10" [PStr ""])
                    {[ "isbn_10" := PList [PStr ""] ]} eq_refl)).
    right. exists "isbn_10", (PList [PStr ""]), (PStr "").
    split; [|by repeat split].
    exists [], ["isbn_13"; "lccn"].
    split; [reflexivity|]. split; [constructor|]. by eexists.
Defined.

(** C10 as stated fails: with the ISBN-10 [""] the kind isbn_10 is a key
    of the mapping, and the ValueError of a missing identifier is what
    [create_book] raises. *)
Lemma blank_identifier_is_invalid_input :
  create_book unreachable (book_with "isbn_10" [PStr ""]) false []
  = (Raise (ValueError "ISBN10/13 or LCCN required"), [])
  /\ ~ (forall k, k ∈ VALID_IDS ->
          ({[ "isbn_10" := PList [PStr ""] ]} : gmap string pyval) !! k
          = None).
Proof.
  split; [reflexivity|].
  intros H. specialize (H "isbn_10"). unfold VALID_IDS in H.
  rewrite elem_of_cons in H. specialize (H (or_introl eq_refl)).
  discriminate H.
Qed.

(** ** What a computation adds to the trace *)

Lemma keeps_ret {A} P (Q : A -> Prop) a : Q a -> keeps P Q (ret a).
Proof. intros H tr. exists []. by rewrite app_nil_r. Qed.

Lemma keeps_raise {A} P (Q : A -> Prop) e : keeps P Q (raise e).
Proof. intros tr. exists []. by rewrite app_nil_r. Qed.

Lemma keeps_lift {A} P (o : outcome A) : keeps P (fun _ => True) (lift o).
Proof. intros tr. exists []. rewrite app_nil_r. by destruct o. Qed.

Lemma keeps_bind {A B} P (Q : B -> Prop) (m : M A) (k : A -> M B) :
  keeps P (fun _ => True) m -> (forall a, keeps P Q (k a)) ->
  keeps P Q (bind m k).
Proof.
  intros Hm Hk tr. unfold bind.
  destruct (Hm tr) as (evs & Heq & HP & _).
  destruct (m tr) as [[a|e|] tr']; simpl in Heq; subst tr'.
  - destruct (Hk a (tr ++ evs)) as (evs' & Heq' & HP' & HQ).
    exists (evs ++ evs'). rewrite Heq', app_assoc.
    split; [done|]. split; [by apply Forall_app|done].
  - by exists evs.
  - by exists evs.
Qed.

Lemma keeps_weaken {A} (P P' : event -> Prop) (Q : A -> Prop) m :
  (forall ev, P ev -> P' ev) -> keeps P Q m -> keeps P' Q m.
Proof.
  intros HPP' Hm tr. destruct (Hm tr) as (evs & Heq & HP & HQ).
  exists evs. split; [done|]. split; [|done].
  by eapply Forall_impl.
Qed.

(** A wrapped request adds that request, waits and the give-up record. *)
Lemma keeps_with_backoff self r msg :
  keeps (fun ev => ev = EvRequest r \/ (exists n, ev = EvSleep n)
                   \/ ev = EvGiveUp msg)
        (fun _ => True) (with_backoff msg (send self r)).
Proof.
  intros tr.
  destruct (retry_events self r msg is_RequestException 5 5 0 tr)
    as (evs & Heq & _ & HP).
  exists evs. split; [exact Heq|]. split; [exact HP|].
  by destruct (fst _).
Qed.

Lemma keeps_get_matching_authors_olid self name :
  keeps (fun ev => is_creation_request self ev = false) (fun _ => True)
        (get_matching_authors_olid self name).
Proof.
  unfold get_matching_authors_olid.
  apply keeps_bind; [|intros authors; apply keeps_bind; [apply keeps_lift|];
                      intros _name; apply keeps_bind; [apply keeps_lift|];
                      intros items; apply keeps_lift].
  unfold get_matching_authors_by_name.
  destruct (Py.truthy name); [|by apply keeps_ret].
  apply keeps_bind; [apply keeps_lift|]. intros n.
  apply keeps_bind; [apply keeps_lift|]. intros l.
  apply keeps_bind; [|intros resp; apply keeps_lift].
  eapply keeps_weaken; [|apply keeps_with_backoff].
  intros ev [->|[[n' ->]| ->]]; reflexivity.
Qed.

(** Four timeouts and then an answer; and a network that is down. *)
Lemma retry_policy_five_attempts_witness :
  (fst (with_backoff "Error at login: %s"
          (send (flaky 4 (json_response PNone)) login_request) [])
   = Return (json_response PNone)
   /\ giveups (snd (with_backoff "Error at login: %s"
                      (send (flaky 4 (json_response PNone)) login_request) []))
      = 0)
  /\ (fst (with_backoff "Error at login: %s"
             (send unreachable login_request) [])
      = Raise (RequestException "connection refused")
      /\ giveups (snd (with_backoff "Error at login: %s"
                         (send unreachable login_request) []))
         = 1
      /\ requests_sent (snd (with_backoff "Error at login: %s"
                               (send unreachable login_request) []))
         = 5).
Proof.
  split.
  - destruct (retry_policy_five_attempts (flaky 4 (json_response PNone))
                login_request "Error at login: %s" []) as (Hrec & _ & _).
    destruct (Hrec 4 (json_response PNone)) as (Heq & Hg & _).
    + lia.
    + intros i Hi. exists "timed out".
      do 4 (destruct i as [|i]; [reflexivity|]). lia.
    + reflexivity.
    + rewrite Heq. split; [reflexivity|exact Hg].
  - destruct (retry_policy_five_attempts unreachable
                login_request "Error at login: %s" []) as (_ & Hdown & _).
    destruct (Hdown (fun _ => "connection refused")) as (Heq & Hg & Hn).
    + intros i. reflexivity.
    + rewrite Heq. split; [reflexivity|]. split; [exact Hg|exact Hn].
Defined.

(** ** Resolving an author *)

Lemma split_nonempty sep s : Text.split sep s <> [].
Proof.
  destruct s as [|c s]; cbn; [done|].
  destruct (Ascii.eqb c sep); [done|]. by destruct (Text.split sep s).
Qed.

Lemma split_last_text k :
  Py.split_last (PStr k)
  = Return (default "" (last (Text.split "/"%char k))).
Proof.
  cbn. destruct (last (Text.split "/"%char k)) eqn:H; [done|].
  apply last_None in H. by apply split_nonempty in H.
Qed.

Lemma first_exact_match_candidate q n k rest :
  first_exact_match q (candidate n k :: rest)
  = if String.eqb q (Text.strip (Text.lower n))
    then Return (Some (default "" (last (Text.split "/"%char k))))
    else first_exact_match q rest.
Proof.
  cbn [first_exact_match]. unfold candidate.
  cbn [Py.getitem]. rewrite lookup_insert_eq. cbn [obind Py.lower_strip].
  destruct (String.eqb q _); [|done].
  rewrite lookup_insert_ne by done. rewrite lookup_singleton_eq.
  cbn [obind]. rewrite split_last_text. reflexivity.
Qed.

(** What the loop does hold: the records before the first exact match
    are passed over, and that match gives the identifier. *)
Lemma first_exact_match_first q pre n k post :
  Forall (fun c => String.eqb q (Text.strip (Text.lower c.1)) = false) pre ->
  String.eqb q (Text.strip (Text.lower n)) = true ->
  first_exact_match q
    (map (fun c => candidate c.1 c.2) (pre ++ (n, k) :: post))
  = Return (Some (default "" (last (Text.split "/"%char k)))).
Proof.
  intros Hpre Hn. induction Hpre as [|[n' k'] pre Hc _ IH].
  - cbn [app map fst snd]. by rewrite first_exact_match_candidate, Hn.
  - cbn [app map fst snd] in *. by rewrite first_exact_match_candidate, Hc.
Qed.

(** No exact match among the records: no identifier. *)
Lemma first_exact_match_none q cands :
  Forall (fun c => String.eqb q (Text.strip (Text.lower c.1)) = false) cands ->
  first_exact_match q (map (fun c => candidate c.1 c.2) cands) = Return None.
Proof.
  induction 1 as [|[n k] cands Hc _ IH]; [done|].
  cbn [map fst snd] in *. by rewrite first_exact_match_candidate, Hc.
Qed.

(** C1, the code at the failing input.  The autocomplete answers with
    two records whose normalized names both equal the normalized query;
    [get_matching_authors_olid] returns the identifier of the first of
    them, where its docstring and the specification ask for [None]. *)
Theorem first_of_two_exact_matches_is_returned :
  Py.lower_strip (PStr "Mike Smith") = Return "mike smith"
  /\ Py.lower_strip (PStr " mike smith ") = Return "mike smith"
  /\ get_matching_authors_olid (answering (json_response mike_smiths))
       (PStr "Mike Smith") []
     = (Return (Some "OL1A"),
        [EvRequest
           (mkRequest GET
              "https://openlibrary.org/authors/_autocomplete?q=Mike Smith&limit=1"
              NoBody [])]).
Proof. repeat split. Qed.

(** ** Extracting an identifier from a URL *)

Lemma sapp_nil_l s : "" +:+ s = s.
Proof. reflexivity. Qed.

Lemma sapp_cons c s t : String c s +:+ t = String c (s +:+ t).
Proof. reflexivity. Qed.

Lemma sapp_assoc s t u : (s +:+ t) +:+ u = s +:+ (t +:+ u).
Proof.
  induction s as [|c s IH]; [done|]. by rewrite !sapp_cons, IH.
Qed.

Lemma compile_literal ty : literal ty = true -> Re.compile ty = Some (lits ty).
Proof.
  induction ty as [|c ty IH]; [done|]. cbn [literal Re.compile lits].
  intros [Hc Hty]%andb_prop. apply negb_true_iff in Hc.
  destruct (Ascii.eqb_spec c "."%char) as [->|_]; [discriminate|].
  rewrite Hc, (IH Hty). reflexivity.
Qed.

Lemma match_atoms_lits ty s t :
  Re.match_atoms (lits ty) s = Some t <-> s = ty +:+ t.
Proof.
  revert s. induction ty as [|c ty IH]; intros s; cbn [lits Re.match_atoms].
  - rewrite sapp_nil_l. split; congruence.
  - rewrite sapp_cons. destruct s as [|c' s]; [split; discriminate|].
    cbn [Re.atom_matches].
    destruct (Ascii.eqb_spec c c') as [->|Hne].
    + rewrite IH. split; congruence.
    + split; [discriminate|]. intros [=]. congruence.
Qed.

Lemma span_alnum_spec s id r :
  Text.span_alnum s = (id, r) <->
  s = id +:+ r /\ Text.all_alnum id = true /\ starts_alnum r = false.
Proof.
  revert id r. induction s as [|c s IH]; intros id r; cbn [Text.span_alnum].
  - split.
    + intros [= <- <-]. done.
    + intros (Heq & _ & _). destruct id; [|discriminate].
      rewrite sapp_nil_l in Heq. by subst.
  - destruct (Text.is_alnum c) eqn:Hc.
    + destruct (Text.span_alnum s) as [a r'] eqn:Hs.
      destruct (proj1 (IH a r') eq_refl) as (Heq & Ha & Hr).
      split.
      * intros [= <- <-]. rewrite sapp_cons, <- Heq.
        cbn [Text.all_alnum]. by rewrite Hc, Ha.
      * intros (Heq' & Hid & Hr'). destruct id as [|c' id].
        { rewrite sapp_nil_l in Heq'. subst r. cbn in Hr'. congruence. }
        rewrite sapp_cons in Heq'. injection Heq' as <- Heq'.
        cbn [Text.all_alnum] in Hid. apply andb_prop in Hid as [_ Hid].
        assert ((a, r') = (id, r)) as Hs' by (apply IH; done).
        congruence.
    + split.
      * intros [= <- <-]. cbn. by rewrite Hc.
      * intros (Heq & Hid & Hr). destruct id as [|c' id].
        { rewrite sapp_nil_l in Heq. by subst. }
        rewrite sapp_cons in Heq. injection Heq as <- _.
        cbn [Text.all_alnum] in Hid. apply andb_prop in Hid as [Hid _].
        congruence.
Qed.

(** For a type without metacharacters the pattern matches at the start of
    [s] exactly when [s] begins with the segment, and group 1 is the
    whole identifier. *)
Lemma match_here_literal ty s id :
  Re.match_here (lits ty) s = Some id <-> segment_at ty s id.
Proof.
  unfold segment_at. split.
  - destruct s as [|c s1]; cbn [Re.match_here]; [discriminate|].
    destruct (Ascii.eqb_spec c "/"%char) as [->|_]; [|discriminate].
    destruct (Re.match_atoms (lits ty) s1) as [[|c' s2]|] eqn:Hm;
      [discriminate| |discriminate].
    destruct (Ascii.eqb_spec c' "/"%char) as [->|_]; [|discriminate].
    apply match_atoms_lits in Hm.
    destruct (Text.span_alnum s2) as [a r] eqn:Hs.
    apply span_alnum_spec in Hs as (Hs & Ha & Hr).
    destruct a as [|ca a]; [discriminate|]. intros [= <-].
    exists r. subst s1 s2. split; [|done].
    by rewrite !sapp_cons, sapp_nil_l.
  - intros (rest & -> & Hne & Ha & Hr).
    rewrite sapp_cons, sapp_nil_l. cbn [Re.match_here].
    rewrite (proj2 (match_atoms_lits ty (ty +:+ "/" +:+ id +:+ rest)
                      ("/" +:+ id +:+ rest)) eq_refl).
    rewrite sapp_cons, sapp_nil_l. cbn [Ascii.eqb Bool.eqb].
    rewrite (proj2 (span_alnum_spec (id +:+ rest) id rest)) by done.
    by destruct id.
Qed.

Lemma search_unfold p s :
  Re.search p s
  = match Re.match_here p s with
    | Some id => Some id
    | None =>
        match s with
        | EmptyString => None
        | String _ s' => Re.search p s'
        end
    end.
Proof. by destruct s. Qed.

Lemma search_none p s :
  (forall pre suf, s = pre +:+ suf -> Re.match_here p suf = None) ->
  Re.search p s = None.
Proof.
  induction s as [|c s IH]; intros H; rewrite search_unfold.
  - by rewrite (H "" "").
  - rewrite (H "" (String c s)) by done. apply IH.
    intros pre suf ->. apply (H (String c pre)). by rewrite sapp_cons.
Qed.

Lemma search_leftmost p pre suf id :
  Re.match_here p suf = Some id ->
  (forall pre1 pre2, pre = pre1 +:+ pre2 -> pre2 <> "" ->
     Re.match_here p (pre2 +:+ suf) = None) ->
  Re.search p (pre +:+ suf) = Some id.
Proof.
  intros Hm. induction pre as [|c pre IH]; intros Hleft.
  - rewrite sapp_nil_l, search_unfold. by rewrite Hm.
  - rewrite search_unfold. rewrite (Hleft "" (String c pre)) by done.
    rewrite sapp_cons. apply IH. intros pre1 pre2 -> Hne.
    apply (Hleft (String c pre1)); [by rewrite sapp_cons|done].
Qed.

Lemma search_some p s id :
  Re.search p s = Some id ->
  exists pre suf, s = pre +:+ suf /\ Re.match_here p suf = Some id.
Proof.
  induction s as [|c s IH]; rewrite search_unfold.
  - destruct (Re.match_here p "") eqn:Hm; [|discriminate].
    intros [= ->]. by exists "", "".
  - destruct (Re.match_here p (String c s)) eqn:Hm.
    + intros [= ->]. by exists "", (String c s).
    + intros (pre & suf & -> & Hs)%IH. by exists (String c pre), suf.
Qed.

(** C6.  For a resource type as the docstring lists them (books,
    authors, works, ...: a word that holds no regular-expression
    metacharacter, as every call of the client passes) and any URL: if a segment [/type/id] begins somewhere in the URL, [id]
    being the whole run of alphanumerics after [/type/], and none begins
    further to the left, the extractor returns exactly [id]; if no such
    segment begins anywhere, it returns [None]; it raises nothing; and
    an identifier it returns is that of a segment of the URL. *)
Theorem extract_olid_literal_type (url ty : string) :
  literal ty = true ->
  (forall pre suf id,
     url = pre +:+ suf -> segment_at ty suf id ->
     (forall pre1 pre2 id',
        pre = pre1 +:+ pre2 -> pre2 <> "" ->
        ~ segment_at ty (pre2 +:+ suf) id') ->
     _extract_olid_from_url url ty = Return (Some id))
  /\ (segment_free ty url -> _extract_olid_from_url url ty = Return None)
  /\ (exists r, _extract_olid_from_url url ty = Return r)
  /\ (forall id,
        _extract_olid_from_url url ty = Return (Some id) ->
        exists pre suf, url = pre +:+ suf /\ segment_at ty suf id).
Proof.
  intros Hlit. unfold _extract_olid_from_url.
  rewrite (compile_literal ty Hlit). split; [|split; [|split]].
  - intros pre suf id -> Hseg Hleft. f_equal.
    apply search_leftmost; [by apply match_here_literal|].
    intros pre1 pre2 Hpre Hne.
    destruct (Re.match_here (lits ty) (pre2 +:+ suf)) as [id'|] eqn:Hm;
      [|done].
    apply match_here_literal in Hm. by destruct (Hleft pre1 pre2 id').
  - intros Hfree. f_equal. apply search_none. intros pre suf Heq.
    destruct (Re.match_here (lits ty) suf) as [id|] eqn:Hm; [|done].
    apply match_here_literal in Hm. by destruct (Hfree pre suf id).
  - eauto.
  - intros id [= Hs]. apply search_some in Hs as (pre & suf & -> & Hm).
    exists pre, suf. split; [done|]. by apply match_here_literal.
Qed.

Lemma search_none_inv p s :
  Re.search p s = None ->
  forall pre suf, s = pre +:+ suf -> Re.match_here p suf = None.
Proof.
  intros Hs pre. revert s Hs.
  induction pre as [|c pre IH]; intros s Hs suf ->;
    rewrite search_unfold in Hs.
  - rewrite sapp_nil_l in Hs. by destruct (Re.match_here p suf).
  - rewrite sapp_cons in Hs.
    destruct (Re.match_here p (String c (pre +:+ suf))); [discriminate|].
    by apply (IH (pre +:+ suf)).
Qed.

Lemma earlier_free_spec p pre suf :
  earlier_free p pre suf = true ->
  forall pre1 pre2, pre = pre1 +:+ pre2 -> pre2 <> "" ->
    Re.match_here p (pre2 +:+ suf) = None.
Proof.
  induction pre as [|c pre IH]; cbn [earlier_free];
    intros H pre1 pre2 Heq Hne.
  - destruct pre1; [|discriminate]. rewrite sapp_nil_l in Heq. by subst.
  - destruct (Re.match_here p (String c pre +:+ suf)) eqn:Hm; [discriminate|].
    destruct pre1 as [|c1 pre1].
    + rewrite sapp_nil_l in Heq. by subst.
    + rewrite sapp_cons in Heq. injection Heq as _ Heq. by eapply IH.
Qed.

(** The URL of the docstring, and a URL without any segment. *)
Lemma extract_olid_literal_type_witness :
  _extract_olid_from_url "https://openlibrary.org/books/OL25943366M" "books"
  = Return (Some "OL25943366M")
  /\ _extract_olid_from_url "https://openlibrary.org/books/" "books"
     = Return None.
Proof.
  split.
  - apply (proj1 (extract_olid_literal_type
                    "https://openlibrary.org/books/OL25943366M" "books"
                    eq_refl) "https://openlibrary.org" "/books/OL25943366M").
    + reflexivity.
    + exists "". repeat split. discriminate.
    + intros pre1 pre2 id' Heq Hne Hseg.
      apply match_here_literal in Hseg.
      rewrite (earlier_free_spec (lits "books") "https://openlibrary.org"
                 "/books/OL25943366M" eq_refl pre1 pre2 Heq Hne) in Hseg.
      discriminate Hseg.
  - apply (proj1 (proj2 (extract_olid_literal_type
                           "https://openlibrary.org/books/" "books" eq_refl))).
    intros pre suf id Heq Hseg. apply match_here_literal in Hseg.
    rewrite (search_none_inv (lits "books") "https://openlibrary.org/books/"
               eq_refl pre suf Heq) in Hseg.
    discriminate Hseg.
Defined.

(** Outside these words the resource type is read as a regular
    expression, being spliced into the pattern as it is: no segment
    [/./id] begins anywhere in "/x/OL1M", and for the type "." the
    extractor returns "OL1M". *)
Remark dot_type_matches_any_segment :
  segment_free "." "/x/OL1M"
  /\ _extract_olid_from_url "/x/OL1M" "." = Return (Some "OL1M").
Proof.
  split; [|reflexivity].
  intros pre suf id Heq Hseg. apply match_here_literal in Hseg.
  rewrite (search_none_inv (lits ".") "/x/OL1M" eq_refl pre suf Heq) in Hseg.
  discriminate Hseg.
Qed.

(** ** Search documents and results *)

Lemma extract_works key :
  _extract_olid_from_url key "works"
  = Return (Re.search (lits "works") key).
Proof. reflexivity. Qed.

Lemma iter_or_empty l : Py.iter (Py.or_else (PList l) (PList [])) = Return l.
Proof. by destruct l. Qed.

(** C7.  A search document built from keyword arguments that hold a
    list of author names and a list of author keys (and the key of the
    work, and no keyword named self) has as authors the pairwise zip of
    the two lists, as long as the shorter one; in particular names
    ["A", "B"] and keys ["K1"] give the one author ("A", "K1"). *)
Theorem document_authors_truncating_zip
  (kw : gmap string pyval) (key : string) (names keys : list pyval) :
  kw !! "self" = None ->
  kw !! "key" = Some (PStr key) ->
  kw !! "author_name" = Some (PList names) ->
  kw !! "author_key" = Some (PList keys) ->
  exists d,
    Results.Document_init kw = Return d
    /\ Results.authors d = zip_with book.Author names keys
    /\ length (Results.authors d) = min (length names) (length keys).
Proof.
  intros Hself Hkey Hn Hk. unfold Results.Document_init, Py.kwarg.
  rewrite Hself, Hkey, Hn, Hk. cbn [Py.as_text obind from_option id].
  rewrite extract_works. cbn [obind]. rewrite !iter_or_empty. cbn [obind].
  eexists. split; [reflexivity|]. cbn [Results.authors].
  split; [reflexivity|]. apply length_zip_with.
Qed.

Lemma document_authors_truncating_zip_witness :
  exists d,
    Results.Document_init two_names_one_key = Return d
    /\ Results.authors d = [book.Author (PStr "A") (PStr "K1")]
    /\ length (Results.authors d) = 1.
Proof.
  exact (document_authors_truncating_zip two_names_one_key "/works/OL1W"
           [PStr "A"; PStr "B"] [PStr "K1"] eq_refl eq_refl eq_refl eq_refl).
Defined.

(** C9.  [Results.__init__] called without [docs], or with [docs=None],
    raises TypeError; so does [get_book_by_metadata] when the parsed
    search response is an object without a docs field, the TypeError
    not being among the errors it catches. *)
Theorem results_without_docs_raise :
  (forall kw : gmap string pyval,
     kw !! "docs" = None \/ kw !! "docs" = Some PNone ->
     Results.init kw = Raise TypeError)
  /\ (forall self title t tr tr' resp (d : gmap string pyval),
        Py.format_s title = Return t ->
        with_backoff "Error retrieving metadata for book: %s"
          (http_get self (base_url self +:+ "/search.json?title=" +:+ t)) tr
        = (Return resp, tr') ->
        resp_json resp = Return (PDict d) ->
        d !! "docs" = None ->
        get_book_by_metadata self title PNone tr = (Raise TypeError, tr')).
Proof.
  assert (Hinit : forall kw : gmap string pyval,
            kw !! "docs" = None \/ kw !! "docs" = Some PNone ->
            Results.init kw = Raise TypeError).
  { intros kw [H|H]; unfold Results.init, Py.kwarg; rewrite H;
      by destruct (kw !! "self"). }
  split; [exact Hinit|].
  intros self title t tr tr' resp d Ht Hnet Hjson Hdocs.
  unfold get_book_by_metadata. unfold bind at 1, lift at 1. rewrite Ht.
  cbn [Py.truthy]. unfold bind at 1, ret at 1.
  unfold bind at 1. rewrite Hnet.
  unfold bind at 1, except_ValueError, bind, lift. rewrite Hjson.
  cbn [Py.as_kwargs]. by rewrite (Hinit d (or_introl Hdocs)).
Qed.

Lemma results_without_docs_raise_witness :
  Results.init ∅ = Raise TypeError
  /\ Results.init {[ "docs" := PNone ]} = Raise TypeError
  /\ get_book_by_metadata
       (answering (json_response (PDict {[ "numFound" := PInt 0 ]})))
       (PStr "Dune") PNone []
     = (Raise TypeError,
        [EvRequest (mkRequest GET
           "https://openlibrary.org/search.json?title=Dune" NoBody [])]).
Proof.
  destruct results_without_docs_raise as [Hinit Hmeta].
  split; [exact (Hinit ∅ (or_introl eq_refl))|].
  split; [exact (Hinit {[ "docs" := PNone ]} (or_intror eq_refl))|].
  exact (Hmeta (answering (json_response (PDict {[ "numFound" := PInt 0 ]})))
           (PStr "Dune") "Dune" [] _ _ {[ "numFound" := PInt 0 ]}
           eq_refl eq_refl eq_refl eq_refl).
Defined.

(** ** Looking a book up by ISBN *)

Lemma json_or_none_value resp j tr :
  resp_json resp = Return j -> json_or_none resp tr = (Return (Some j), tr).
Proof.
  intros H. unfold json_or_none, except_ValueError, bind, lift, ret.
  by rewrite H.
Qed.

Lemma json_or_none_invalid resp m tr :
  resp_json resp = Raise (ValueError m) ->
  json_or_none resp tr = (Return None, tr ++ [EvLogException (ValueError m)]).
Proof.
  intros H. unfold json_or_none, except_ValueError, bind, lift, ret.
  by rewrite H.
Qed.

Lemma truthy_insert (m : gmap string pyval) k v :
  Py.truthy (PDict (<[k := v]> m)) = true.
Proof.
  cbn [Py.truthy]. destruct (map_to_list (<[k:=v]> m)) eqn:H; [|done].
  apply map_to_list_empty_iff in H. by apply insert_non_empty in H.
Qed.

Lemma bind_lift {A B} (o : outcome A) (a : A) (k : A -> M B) tr :
  o = Return a -> bind (lift o) k tr = k a tr.
Proof. intros ->. reflexivity. Qed.

Lemma book_kwargs_fields (kw : gmap string pyval) t i a :
  kw !! "title" = Some t ->
  kw !! "identifiers" = Some i -> Py.truthy i = true ->
  kw !! "authors" = Some a -> Py.truthy a = true ->
  exists b,
    book.Book_kwargs kw = Return b
    /\ book.title b = t /\ book.identifiers b = i /\ book.authors b = a.
Proof.
  intros Ht Hi Hti Ha Hta. unfold book.Book_kwargs, Py.kwarg, Py.or_else.
  rewrite Ht, Hi, Ha. cbn [from_option id]. rewrite Hti, Hta.
  eexists. split; [reflexivity|]. done.
Qed.

(** C2, as the code has it.  For isbn "123", when the answer's body is
    the object of the specification's example with an identifiers object
    [ids] added to the record, [get_book_by_isbn] returns a Book whose
    identifiers are [ids] with olid: ["OL1M"] added, whose authors are
    [Author(name="A", olid="OL2A")] and whose title is "X". *)
Theorem get_book_by_isbn_sample
  (self : OpenLibrary) (tr tr' : trace) (resp : response)
  (ids : gmap string pyval) :
  with_backoff "Error retrieving OpenLibrary book by isbn: %s"
    (http_get self (isbn_data_url self "123")) tr = (Return resp, tr') ->
  resp_json resp
  = Return (isbn_body (<["identifiers" := PDict ids]> sample_edition)) ->
  exists b,
    get_book_by_isbn self "123" tr
    = (Return (Some b), tr' ++ [EvPrint (PStr "/books/OL1M")])
    /\ book.identifiers b = PDict (<["olid" := PList [PStr "OL1M"]]> ids)
    /\ book.authors b = PList [book.Author (PStr "A") (PStr "OL2A")]
    /\ book.title b = PStr "X".
Proof.
  intros Hnet Hjson.
  unfold get_book_by_isbn. unfold isbn_data_url in Hnet.
  unfold bind at 1. rewrite Hnet.
  unfold bind at 1. rewrite (json_or_none_value _ _ _ Hjson).
  remember (<["olid" := PList [PStr "OL1M"]]> ids) as ids' eqn:Hids.
  assert (Htr : Py.truthy (PDict ids') = true)
    by (subst; apply truthy_insert).
  rewrite (bind_lift _ true) by reflexivity.
  rewrite (bind_lift _ (PDict (<["identifiers" := PDict ids]> sample_edition)))
    by reflexivity.
  rewrite (bind_lift _ (PStr "/books/OL1M")) by reflexivity.
  rewrite bind_emit.
  rewrite (bind_lift _ "/books/OL1M") by reflexivity.
  rewrite (bind_lift _ (Some "OL1M")) by reflexivity.
  rewrite (bind_lift _ (PDict ids)) by reflexivity.
  rewrite (bind_lift _ (PDict ids')) by (subst ids'; reflexivity).
  rewrite (bind_lift _ [PDict {[ "name" := PStr "A";
                                 "url" := PStr "/authors/OL2A" ]}])
    by reflexivity.
  rewrite (bind_lift _ [book.Author (PStr "A") (PStr "OL2A")])
    by reflexivity.
  match goal with
  | |- context [book.Book_kwargs ?kw] =>
      destruct (book_kwargs_fields kw (PStr "X") (PDict ids')
                  (PList [book.Author (PStr "A") (PStr "OL2A")]))
        as (b & Hb & Ht & Hi & Ha);
      [reflexivity|reflexivity|exact Htr|reflexivity|reflexivity|]
  end.
  rewrite (bind_lift _ b) by exact Hb.
  exists b. split; [reflexivity|]. done.
Qed.

(** The record of the specification's example with "identifiers": {}
    added. *)
Lemma get_book_by_isbn_sample_witness :
  exists b,
    get_book_by_isbn
      (answering (json_response
         (isbn_body (<["identifiers" := PDict ∅]> sample_edition)))) "123" []
    = (Return (Some b),
       [EvRequest (mkRequest GET
          "https://openlibrary.org/api/books?bibkeys=ISBN:123&format=json&jscmd=data"
          NoBody [])] ++ [EvPrint (PStr "/books/OL1M")])
    /\ book.identifiers b = PDict (<["olid" := PList [PStr "OL1M"]]> ∅)
    /\ book.authors b = PList [book.Author (PStr "A") (PStr "OL2A")]
    /\ book.title b = PStr "X".
Proof.
  exact (get_book_by_isbn_sample
           (answering (json_response
              (isbn_body (<["identifiers" := PDict ∅]> sample_edition))))
           [] _ _ ∅ eq_refl eq_refl).
Defined.

(** C2 as stated fails: the record of the example has no identifiers
    field, and storing the olid under it raises KeyError. *)
Lemma edition_without_identifiers_raises :
  sample_edition !! "identifiers" = None
  /\ get_book_by_isbn (answering (json_response (isbn_body sample_edition)))
       "123" []
     = (Raise (KeyError "identifiers"),
        [EvRequest (mkRequest GET
           "https://openlibrary.org/api/books?bibkeys=ISBN:123&format=json&jscmd=data"
           NoBody []);
         EvPrint (PStr "/books/OL1M")]).
Proof. split; reflexivity. Qed.

Lemma slength_app s t :
  String.length (s +:+ t) = String.length s + String.length t.
Proof.
  induction s as [|c s IH]; [by rewrite sapp_nil_l|].
  rewrite sapp_cons. cbn [String.length]. by rewrite IH.
Qed.

Lemma prefix_app p s :
  String.prefix p s = true -> exists suf, s = p +:+ suf.
Proof.
  revert s. induction p as [|c p IH]; intros s.
  - intros _. exists s. by rewrite sapp_nil_l.
  - destruct s as [|c' s]; cbn [String.prefix]; [discriminate|].
    destruct (Ascii.ascii_dec c c') as [->|]; [|discriminate].
    intros [suf ->]%IH. exists suf. by rewrite sapp_cons.
Qed.

Lemma text_contains_occurs k s :
  Text.contains k s = true -> exists pre suf, s = pre +:+ k +:+ suf.
Proof.
  induction s as [|c s IH]; cbn [Text.contains].
  - rewrite orb_false_r. intros [suf ->]%prefix_app.
    exists "", suf. by rewrite sapp_nil_l.
  - intros [[suf ->]%prefix_app|(pre & suf & ->)%IH]%orb_true_iff.
    + exists "", suf. by rewrite sapp_nil_l.
    + exists (String c pre), suf. by rewrite sapp_cons.
Qed.

Lemma contains_without_key k j :
  without_key k j -> Py.contains k j = Return false.
Proof.
  destruct j as [| | |s|l|d|]; cbn [without_key Py.contains]; try done.
  - intros H. f_equal. destruct (Text.contains k s) eqn:Hc; [|done].
    apply text_contains_occurs in Hc as (pre & suf & ->). by destruct (H pre suf).
  - intros H. f_equal. apply not_true_is_false. intros Hex.
    apply existsb_exists in Hex as (x & Hx & Heq). apply H.
    destruct x; cbn in Heq; try discriminate.
    apply String.eqb_eq in Heq as ->. by apply list_elem_of_In.
  - intros H. f_equal. apply bool_decide_eq_false_2. rewrite H.
    by intros [? ?].
Qed.

Lemma contains_no_container k j :
  no_container j -> Py.contains k j = Raise TypeError.
Proof. by destruct j. Qed.

(** C8, as the code has it.  Once the request is answered:
    [get_book_by_isbn] and [get_olid_by_isbn] return [None] when the
    body is not JSON (the ValueError is logged), and when the body
    parses to an object that has no "ISBN:<isbn>" key, to a list none of
    whose items is that key, or to a string in which the key does not
    occur; when the body parses to null, a boolean or an integer, the
    membership test raises TypeError in both. *)
Theorem isbn_lookups_absent (self : OpenLibrary) (isbn : string) (tr : trace) :
  (forall tr' resp,
     with_backoff "Error retrieving OpenLibrary book by isbn: %s"
       (http_get self (isbn_data_url self isbn)) tr = (Return resp, tr') ->
     (forall m,
        resp_json resp = Raise (ValueError m) ->
        get_book_by_isbn self isbn tr
        = (Return None, tr' ++ [EvLogException (ValueError m)]))
     /\ (forall j,
           resp_json resp = Return j ->
           without_key ("ISBN:" +:+ isbn) j ->
           get_book_by_isbn self isbn tr = (Return None, tr'))
     /\ (forall j,
           resp_json resp = Return j -> no_container j ->
           get_book_by_isbn self isbn tr = (Raise TypeError, tr')))
  /\ (forall tr' resp,
        with_backoff "Error retrieving OpenLibrary ID by isbn: %s"
          (http_get self (isbn_url self isbn)) tr = (Return resp, tr') ->
        (forall m,
           resp_json resp = Raise (ValueError m) ->
           get_olid_by_isbn self isbn tr
           = (Return None, tr' ++ [EvLogException (ValueError m)]))
        /\ (forall j,
              resp_json resp = Return j ->
              without_key ("ISBN:" +:+ isbn) j ->
              get_olid_by_isbn self isbn tr = (Return None, tr'))
        /\ (forall j,
              resp_json resp = Return j -> no_container j ->
              get_olid_by_isbn self isbn tr = (Raise TypeError, tr'))).
Proof.
  split; intros tr' resp Hnet;
    (split; [intros m Hjson|split; intros j Hjson Hj]).
  - unfold get_book_by_isbn. unfold isbn_data_url in Hnet.
    unfold bind at 1. rewrite Hnet.
    unfold bind at 1. by rewrite (json_or_none_invalid _ _ _ Hjson).
  - unfold get_book_by_isbn. unfold isbn_data_url in Hnet.
    unfold bind at 1. rewrite Hnet.
    unfold bind at 1. rewrite (json_or_none_value _ _ _ Hjson).
    rewrite (bind_lift _ false); [reflexivity|].
    by apply contains_without_key.
  - unfold get_book_by_isbn. unfold isbn_data_url in Hnet.
    unfold bind at 1. rewrite Hnet.
    unfold bind at 1. rewrite (json_or_none_value _ _ _ Hjson).
    unfold bind, lift. by rewrite (contains_no_container _ _ Hj).
  - unfold get_olid_by_isbn. unfold isbn_url in Hnet.
    unfold bind at 1. rewrite Hnet.
    unfold bind at 1. by rewrite (json_or_none_invalid _ _ _ Hjson).
  - unfold get_olid_by_isbn. unfold isbn_url in Hnet.
    unfold bind at 1. rewrite Hnet.
    unfold bind at 1. rewrite (json_or_none_value _ _ _ Hjson).
    rewrite (bind_lift _ false); [reflexivity|].
    by apply contains_without_key.
  - unfold get_olid_by_isbn. unfold isbn_url in Hnet.
    unfold bind at 1. rewrite Hnet.
    unfold bind at 1. rewrite (json_or_none_value _ _ _ Hjson).
    unfold bind, lift. by rewrite (contains_no_container _ _ Hj).
Qed.

(** A body that is not JSON; the bodies {}, ["ISBN:1234"] and "ISBN:12",
    which do not hold the key "ISBN:123"; and the bodies 0 and true. *)
Lemma isbn_lookups_absent_witness :
  (fst (get_book_by_isbn (answering not_json) "123" []) = Return None
   /\ fst (get_book_by_isbn (answering (json_response (PDict ∅))) "123" [])
      = Return None
   /\ fst (get_book_by_isbn
             (answering (json_response (PList [PStr "ISBN:1234"]))) "123" [])
      = Return None
   /\ fst (get_book_by_isbn (answering (json_response (PInt 0))) "123" [])
      = Raise TypeError)
  /\ (fst (get_olid_by_isbn (answering not_json) "123" []) = Return None
      /\ fst (get_olid_by_isbn (answering (json_response (PDict ∅))) "123" [])
         = Return None
      /\ fst (get_olid_by_isbn
                (answering (json_response (PStr "ISBN:12"))) "123" [])
         = Return None
      /\ fst (get_olid_by_isbn
                (answering (json_response (PBool true))) "123" [])
         = Raise TypeError).
Proof.
  split; (split; [|split; [|split]]).
  - destruct (isbn_lookups_absent (answering not_json) "123" []) as [H _].
    destruct (H _ not_json eq_refl) as [H1 _].
    by rewrite (H1 _ eq_refl).
  - destruct (isbn_lookups_absent (answering (json_response (PDict ∅)))
                "123" []) as [H _].
    destruct (H _ (json_response (PDict ∅)) eq_refl) as (_ & H2 & _).
    by rewrite (H2 (PDict ∅) eq_refl eq_refl).
  - destruct (isbn_lookups_absent
                (answering (json_response (PList [PStr "ISBN:1234"])))
                "123" []) as [H _].
    destruct (H _ (json_response (PList [PStr "ISBN:1234"])) eq_refl)
      as (_ & H2 & _).
    rewrite (H2 (PList [PStr "ISBN:1234"]) eq_refl); [reflexivity|].
    cbn [without_key]. intros Hin.
    apply elem_of_cons in Hin as [Hin|Hin]; [discriminate Hin|].
    by apply elem_of_nil in Hin.
  - destruct (isbn_lookups_absent (answering (json_response (PInt 0)))
                "123" []) as [H _].
    destruct (H _ (json_response (PInt 0)) eq_refl) as (_ & _ & H3).
    by rewrite (H3 (PInt 0) eq_refl I).
  - destruct (isbn_lookups_absent (answering not_json) "123" []) as [_ H].
    destruct (H _ not_json eq_refl) as [H1 _].
    by rewrite (H1 _ eq_refl).
  - destruct (isbn_lookups_absent (answering (json_response (PDict ∅)))
                "123" []) as [_ H].
    destruct (H _ (json_response (PDict ∅)) eq_refl) as (_ & H2 & _).
    by rewrite (H2 (PDict ∅) eq_refl eq_refl).
  - destruct (isbn_lookups_absent (answering (json_response (PStr "ISBN:12")))
                "123" []) as [_ H].
    destruct (H _ (json_response (PStr "ISBN:12")) eq_refl) as (_ & H2 & _).
    rewrite (H2 (PStr "ISBN:12") eq_refl); [reflexivity|].
    cbn [without_key]. intros pre suf Heq.
    apply (f_equal String.length) in Heq.
    rewrite !slength_app in Heq. cbn in Heq. lia.
  - destruct (isbn_lookups_absent (answering (json_response (PBool true)))
                "123" []) as [_ H].
    destruct (H _ (json_response (PBool true)) eq_refl) as (_ & _ & H3).
    by rewrite (H3 (PBool true) eq_refl I).
Defined.

(** C8 as stated fails: the body [null] parses, holds no "ISBN:123" key,
    and the membership test on it raises TypeError in both lookups. *)
Lemma null_body_raises :
  resp_json (json_response PNone) = Return PNone
  /\ get_book_by_isbn (answering (json_response PNone)) "123" []
     = (Raise TypeError,
        [EvRequest (mkRequest GET
           "https://openlibrary.org/api/books?bibkeys=ISBN:123&format=json&jscmd=data"
           NoBody [])])
  /\ get_olid_by_isbn (answering (json_response PNone)) "123" []
     = (Raise TypeError,
        [EvRequest (mkRequest GET
           "https://openlibrary.org/api/books?bibkeys=ISBN:123&format=json"
           NoBody [])]).
Proof. repeat split. Qed.

(** ** The client on sample runs *)

Example extract_olid_docstring :
  _extract_olid_from_url "https://openlibrary.org/books/OL25943366M" "books"
  = Return (Some "OL25943366M").
Proof. reflexivity. Qed.

(** [login] behind the retry policy: four timeouts and then a cookie. *)
Example login_after_four_timeouts :
  fst (login (flaky 4 with_cookie) ∅ []) = Return tt
  /\ requests_sent (snd (login (flaky 4 with_cookie) ∅ [])) = 5
  /\ giveups (snd (login (flaky 4 with_cookie) ∅ [])) = 0.
Proof. repeat split. Qed.

(** An answer without a cookie is an error of its own, after one
    request. *)
Example login_without_cookie :
  login (answering (json_response PNone)) ∅ []
  = (Raise (Exception "No cookie set"), [EvRequest login_request]).
Proof. reflexivity. Qed.

(** A network that is down: five requests, the callback once, and the
    error reaches the caller of [get_olid_by_isbn]. *)
Example get_olid_by_isbn_unreachable :
  fst (get_olid_by_isbn unreachable "123" [])
  = Raise (RequestException "connection refused")
  /\ requests_sent (snd (get_olid_by_isbn unreachable "123" [])) = 5
  /\ giveups (snd (get_olid_by_isbn unreachable "123" [])) = 1.
Proof. repeat split. Qed.

(** [_create_book] called with a kind that is not among [VALID_IDS]:
    the message names the valid kinds and the one it got. *)
Example create_book_invalid_id_name :
  _create_book unreachable (PStr "T") (PStr "") (PStr "__new__")
    (PStr "2000") (PStr "P") "oclc" (PStr "48") false []
  = (Raise (ValueError
       "Invalid `id_name`. Must be one of ['isbn_10', 'isbn_13', 'lccn'], got oclc"),
     []).
Proof. reflexivity. Qed.

(** A record that has a field named self cannot be unpacked into the
    arguments of a constructor. *)
Example self_among_the_keywords :
  Results.Document_init (<["self" := PNone]> two_names_one_key)
  = Raise TypeError
  /\ Results.init {[ "self" := PNone; "docs" := PList [] ]} = Raise TypeError.
Proof. split; reflexivity. Qed.

(** * Further properties of the client *)

(** ** Running a computation step by step *)

Lemma bind_run {A B} (m : M A) (k : A -> M B) tr a tr1 :
  m tr = (Return a, tr1) -> bind m k tr = k a tr1.
Proof. intros H. unfold bind. by rewrite H. Qed.

Lemma bind_raise {A B} (m : M A) (k : A -> M B) tr e tr1 :
  m tr = (Raise e, tr1) -> bind m k tr = (Raise e, tr1).
Proof. intros H. unfold bind. by rewrite H. Qed.

Lemma bind_inv {A B} (m : M A) (k : A -> M B) tr b tr' :
  bind m k tr = (Return b, tr') ->
  exists a tr1, m tr = (Return a, tr1) /\ k a tr1 = (Return b, tr').
Proof.
  unfold bind. destruct (m tr) as [[a|e|] tr1]; [eauto|discriminate..].
Qed.

Lemma lift_inv {A} (o : outcome A) tr a tr' :
  lift o tr = (Return a, tr') -> o = Return a /\ tr' = tr.
Proof. unfold lift. by intros [= -> ->]. Qed.

(** A request that is answered at once is sent once. *)
Lemma with_backoff_answered self r msg tr resp :
  net self (requests_sent tr) r = Return resp ->
  with_backoff msg (send self r) tr = (Return resp, tr ++ [EvRequest r]).
Proof.
  intros H. unfold with_backoff, backoff.on_exception.
  cbn [wait_gen exception max_tries BACKOFF_KWARGS].
  rewrite retry_unfold. unfold send. by rewrite H.
Qed.

(** ** Logging in *)

(** X1.  When the login request is answered, [login] returns if the
    answer carries a Set-Cookie header and raises Exception("No cookie
    set") if it does not; in both cases exactly this one request was
    sent: the missing cookie is not retried. *)
Theorem login_needs_cookie
  (self : OpenLibrary) (credentials : gmap string pyval) (tr : trace)
  (resp : response) :
  net self (requests_sent tr) (login_rq self credentials) = Return resp ->
  login self credentials tr
  = (if has_header "Set-Cookie" resp then Return tt
     else Raise (Exception "No cookie set"),
     tr ++ [EvRequest (login_rq self credentials)]).
Proof.
  intros H. unfold login.
  rewrite (bind_run _ _ _ _ _
             (with_backoff_answered self (login_rq self credentials) _ tr resp H)).
  by destruct (has_header "Set-Cookie" resp).
Qed.

Lemma login_needs_cookie_witness :
  login (answering with_cookie) ∅ [] = (Return tt, [EvRequest login_request])
  /\ login (answering (json_response PNone)) ∅ []
     = (Raise (Exception "No cookie set"), [EvRequest login_request]).
Proof.
  split.
  - exact (login_needs_cookie (answering with_cookie) ∅ [] with_cookie eq_refl).
  - exact (login_needs_cookie (answering (json_response PNone)) ∅ []
             (json_response PNone) eq_refl).
Defined.

(** ** Splitting a key at its slashes *)

Lemma split_join sep s : join_with sep (Text.split sep s) = s.
Proof.
  induction s as [|c s IH]; [done|]. cbn [Text.split].
  destruct (Ascii.eqb_spec c sep) as [->|Hne].
  - cbn [join_with]. destruct (Text.split sep s) eqn:Hs.
    + by apply split_nonempty in Hs.
    + rewrite sapp_nil_l. by rewrite IH.
  - destruct (Text.split sep s) as [|h t] eqn:Hs.
    + by apply split_nonempty in Hs.
    + cbn [join_with] in *. destruct t; [by subst|].
      by rewrite sapp_cons, IH.
Qed.

Lemma split_lacks sep s :
  Forall (fun x => lacks sep x = true) (Text.split sep s).
Proof.
  induction s as [|c s IH]; cbn [Text.split].
  - by repeat constructor.
  - destruct (Ascii.eqb_spec c sep) as [->|Hne].
    + by constructor.
    + destruct (Text.split sep s) as [|h t]; inversion IH; subst.
      * repeat constructor. cbn. by destruct (Ascii.eqb_spec c sep).
      * constructor; [|done]. cbn. destruct (Ascii.eqb_spec c sep); [done|].
        done.
Qed.

Lemma join_last sep l x :
  last l = Some x ->
  exists pre, join_with sep l = pre +:+ x /\ (pre = "" \/ ends_with sep pre).
Proof.
  induction l as [|a l IH]; [done|].
  destruct l as [|b t].
  - intros [= ->]. exists "". by split; [|left].
  - intros Hl. destruct (IH Hl) as (pre & Hj & Hpre).
    exists (a +:+ String sep pre). split.
    + change (join_with sep (a :: b :: t))
        with (a +:+ String sep (join_with sep (b :: t))).
      rewrite Hj, sapp_assoc. by rewrite sapp_cons.
    + right. destruct Hpre as [->|[p ->]].
      * by exists a.
      * exists (a +:+ String sep p). by rewrite sapp_assoc, sapp_cons.
Qed.

(** What [k.split('/')[-1]] is: the part of [k] after its last slash. *)
Lemma last_split_spec sep s x :
  last (Text.split sep s) = Some x ->
  lacks sep x = true
  /\ exists pre, s = pre +:+ x /\ (pre = "" \/ ends_with sep pre).
Proof.
  intros Hl. split.
  - pose proof (split_lacks sep s) as Hall.
    apply (proj1 (Forall_forall _ _) Hall).
    apply last_Some_elem_of in Hl. exact Hl.
  - destruct (join_last sep _ _ Hl) as (pre & Hj & Hpre).
    rewrite split_join in Hj. eauto.
Qed.

(** ** Resolving an author, continued *)

Lemma first_exact_match_candidates q cands :
  first_exact_match q (map (fun c => candidate c.1 c.2) cands)
  = Return (match first_match q cands with
            | Some c => Some (default "" (last (Text.split "/"%char c.2)))
            | None => None
            end).
Proof.
  induction cands as [|[n k] cands IH]; [done|].
  cbn [map fst snd]. rewrite first_exact_match_candidate.
  unfold first_match. cbn [List.find fst snd]. fold (normalized n).
  destruct (String.eqb q (normalized n)); [done|]. exact IH.
Qed.

Lemma get_matching_authors_answered self n tr tr' resp :
  n <> "" ->
  with_backoff "Error fetching author matches: %s"
    (http_get self (authors_url self n)) tr = (Return resp, tr') ->
  get_matching_authors_by_name self (PStr n) (PInt 1) tr
  = (resp_json resp, tr').
Proof.
  intros Hn Hnet. unfold get_matching_authors_by_name.
  destruct n as [|c n]; [done|]. cbn [Py.truthy].
  rewrite (bind_lift _ (String c n)) by reflexivity.
  rewrite (bind_lift _ "1") by reflexivity.
  unfold authors_url in Hnet. rewrite (bind_run _ _ _ _ _ Hnet).
  reflexivity.
Qed.

(** X2.  For a non-empty name, when the autocomplete request is answered
    with a list of records that each have a name and a key,
    [get_matching_authors_olid] returns the part after the last slash of
    the key of the first record whose lowercased, trimmed name equals
    the lowercased, trimmed query, and [None] when there is no such
    record; it adds nothing to the trace beyond the request. *)
Theorem get_matching_authors_olid_first_match
  (self : OpenLibrary) (n : string) (tr tr' : trace) (resp : response)
  (cands : list (string * string)) :
  n <> "" ->
  with_backoff "Error fetching author matches: %s"
    (http_get self (authors_url self n)) tr = (Return resp, tr') ->
  resp_json resp = Return (PList (map (fun c => candidate c.1 c.2) cands)) ->
  get_matching_authors_olid self (PStr n) tr
  = (Return (match first_match (normalized n) cands with
             | Some c => Some (default "" (last (Text.split "/"%char c.2)))
             | None => None
             end), tr').
Proof.
  intros Hn Hnet Hjson. unfold get_matching_authors_olid.
  rewrite (bind_run _ _ _ (PList (map (fun c => candidate c.1 c.2) cands)) tr').
  2:{ rewrite (get_matching_authors_answered self n tr tr' resp Hn Hnet).
      by rewrite Hjson. }
  rewrite (bind_lift _ (normalized n)) by reflexivity.
  rewrite (bind_lift _ (map (fun c => candidate c.1 c.2) cands))
    by reflexivity.
  unfold lift. by rewrite first_exact_match_candidates.
Qed.

Lemma get_matching_authors_olid_first_match_witness :
  get_matching_authors_olid
    (answering (json_response
       (PList [candidate "Jane Roe" "/authors/OL7A";
               candidate "JOHN DOE " "/authors/OL8A"])))
    (PStr " John Doe") []
  = (Return (Some "OL8A"),
     [EvRequest (mkRequest GET
        "https://openlibrary.org/authors/_autocomplete?q= John Doe&limit=1"
        NoBody [])]).
Proof.
  exact (get_matching_authors_olid_first_match
           (answering (json_response
              (PList [candidate "Jane Roe" "/authors/OL7A";
                      candidate "JOHN DOE " "/authors/OL8A"])))
           " John Doe" [] _ _
           [("Jane Roe", "/authors/OL7A"); ("JOHN DOE ", "/authors/OL8A")]
           ltac:(discriminate) eq_refl eq_refl).
Defined.

Lemma lower_strip_inv v s :
  Py.lower_strip v = Return s -> exists n, v = PStr n /\ s = normalized n.
Proof. destruct v; cbn; try discriminate. intros [= <-]. eauto. Qed.

Lemma split_last_inv v o :
  Py.split_last v = Return o ->
  exists k, v = PStr k /\ last (Text.split "/"%char k) = Some o.
Proof.
  destruct v as [| | |k| | |]; cbn; try discriminate.
  destruct (last (Text.split "/"%char k)) eqn:Hl; [|discriminate].
  intros [= <-]. eauto.
Qed.

Lemma getitem_inv v k x :
  Py.getitem v k = Return x -> exists d, v = PDict d /\ d !! k = Some x.
Proof.
  destruct v as [| | | | |d|]; cbn; try discriminate.
  destruct (d !! k) eqn:H; [|discriminate]. intros [= <-]. eauto.
Qed.

(** An identifier the loop returns comes from a record of the list. *)
Lemma first_exact_match_inv q items o :
  first_exact_match q items = Return (Some o) ->
  exists d n k,
    PDict d ∈ items
    /\ d !! "name" = Some (PStr n) /\ normalized n = q
    /\ d !! "key" = Some (PStr k)
    /\ last (Text.split "/"%char k) = Some o.
Proof.
  induction items as [|author rest IH]; [discriminate|].
  cbn [first_exact_match].
  destruct (Py.getitem author "name") as [nv| |] eqn:Hn; [|discriminate..].
  cbn [obind].
  destruct (Py.lower_strip nv) as [n'| |] eqn:Hl; [|discriminate..].
  cbn [obind].
  apply getitem_inv in Hn as (d & -> & Hn).
  apply lower_strip_inv in Hl as (n & -> & ->).
  destruct (String.eqb_spec q (normalized n)) as [->|_].
  - destruct (Py.getitem (PDict d) "key") as [kv| |] eqn:Hk; [|discriminate..].
    cbn [obind].
    destruct (Py.split_last kv) as [o'| |] eqn:Hs; [|discriminate..].
    cbn [obind]. intros [= ->].
    apply getitem_inv in Hk as (d' & [= <-] & Hk).
    apply split_last_inv in Hs as (k & -> & Hs).
    exists d, n, k. split; [by left|done].
  - intros H. destruct (IH H) as (d' & n' & k' & Hin & Hrest).
    exists d', n', k'. split; [by right|done].
Qed.

(** X3.  Whatever the autocomplete answers: an identifier that
    [get_matching_authors_olid] returns is the part after the last slash
    of the key of a record of the answer whose normalized name equals
    the normalized query; it holds no slash, and the query is a
    non-empty string. *)
Theorem author_olid_is_last_segment
  (self : OpenLibrary) (name : pyval) (tr tr' : trace) (o : string) :
  get_matching_authors_olid self name tr = (Return (Some o), tr') ->
  lacks "/"%char o = true
  /\ exists n authors items d cn k pre,
       name = PStr n /\ n <> ""
       /\ get_matching_authors_by_name self name (PInt 1) tr
          = (Return authors, tr')
       /\ Py.iter authors = Return items /\ PDict d ∈ items
       /\ d !! "name" = Some (PStr cn) /\ normalized cn = normalized n
       /\ d !! "key" = Some (PStr k)
       /\ k = pre +:+ o /\ (pre = "" \/ ends_with "/"%char pre).
Proof.
  unfold get_matching_authors_olid. intros H.
  apply bind_inv in H as (authors & tr1 & Hauth & H).
  apply bind_inv in H as (q & tr2 & Hq & H).
  apply lift_inv in Hq as [Hq ->].
  apply bind_inv in H as (items & tr3 & Hit & H).
  apply lift_inv in Hit as [Hit ->].
  apply lift_inv in H as [H ->].
  apply lower_strip_inv in Hq as (n & -> & ->).
  apply first_exact_match_inv in H as (d & cn & k & Hin & Hn & Hcn & Hk & Hl).
  apply last_split_spec in Hl as (Hlacks & pre & Hkeq & Hpre).
  assert (Hne : n <> "").
  { intros ->. unfold get_matching_authors_by_name in Hauth. cbn in Hauth.
    injection Hauth as <- _. cbn in Hit. injection Hit as <-.
    by apply elem_of_nil in Hin. }
  split; [done|].
  exists n, authors, items, d, cn, k, pre.
  repeat split; done.
Qed.

Lemma author_olid_is_last_segment_witness :
  lacks "/"%char "OL1A" = true.
Proof.
  exact (proj1 (author_olid_is_last_segment
                  (answering (json_response mike_smiths)) (PStr "Mike Smith")
                  [] _ "OL1A" eq_refl)).
Defined.

(** ** Creating a book, continued *)

Lemma get_primary_identifier_inv b k v :
  get_primary_identifier b = Return (k, v) -> Py.truthy v = true.
Proof.
  unfold get_primary_identifier.
  destruct (scan_ids (book.identifiers b) VALID_IDS) as [[[k' v']|]| |];
    cbn [obind]; try discriminate.
  destruct (Py.truthy (PStr k')); cbn [andb]; [|discriminate].
  destruct (Py.truthy v') eqn:Hv; [|discriminate].
  by intros [= <- <-].
Qed.

Lemma olid_lacks_slash self name tr tr' o :
  get_matching_authors_olid self name tr = (Return (Some o), tr') ->
  lacks "/"%char o = true.
Proof.
  unfold get_matching_authors_olid. intros H.
  apply bind_inv in H as (authors & tr1 & _ & H).
  apply bind_inv in H as (q & tr2 & _ & H).
  apply bind_inv in H as (items & tr3 & _ & H).
  apply lift_inv in H as [H _].
  apply first_exact_match_inv in H as (d & cn & k & _ & _ & _ & _ & Hl).
  by apply last_split_spec in Hl as [Hl _].
Qed.

Lemma author_key_of_eq (r : option string) :
  match r with
  | Some o => if Py.truthy (PStr o) then PStr ("/authors/" +:+ o)
              else PStr "__new__"
  | None => PStr "__new__"
  end = PStr (author_key_of r).
Proof. by destruct r as [[|c o]|]. Qed.

(** [create_book] after its first four steps. *)
Lemma create_book_run self b debug tr k v pa an r tr1 :
  get_primary_identifier b = Return (k, v) ->
  book.primary_author b = Return pa ->
  author_name_of pa = Return an ->
  get_matching_authors_olid self an tr = (Return r, tr1) ->
  create_book self b debug tr
  = _create_book self (book.title b) an (PStr (author_key_of r))
      (book.publish_date b) (book.publisher b) k v debug tr1.
Proof.
  intros Hp Hpa Han Hr. unfold create_book.
  rewrite (bind_lift _ (k, v)) by done.
  rewrite (bind_lift _ pa) by done.
  rewrite (bind_run _ _ _ an tr).
  2:{ unfold author_name_of in Han. destruct (Py.truthy pa).
      - unfold lift. by rewrite Han.
      - by injection Han as <-. }
  rewrite (bind_run _ _ _ _ _ Hr). by rewrite author_key_of_eq.
Qed.

Lemma create_book_inv self b debug tr c tr' :
  create_book self b debug tr = (Return c, tr') ->
  exists k v pa an r tr1,
    get_primary_identifier b = Return (k, v)
    /\ book.primary_author b = Return pa
    /\ author_name_of pa = Return an
    /\ get_matching_authors_olid self an tr = (Return r, tr1)
    /\ _create_book self (book.title b) an (PStr (author_key_of r))
         (book.publish_date b) (book.publisher b) k v debug tr1
       = (Return c, tr').
Proof.
  intros H. pose proof H as H0. unfold create_book in H.
  apply bind_inv in H as ([k v] & tr1 & Hp & H).
  apply lift_inv in Hp as [Hp ->].
  apply bind_inv in H as (pa & tr2 & Hpa & H).
  apply lift_inv in Hpa as [Hpa ->].
  apply bind_inv in H as (an & tr3 & Han & H).
  assert (Han' : author_name_of pa = Return an /\ tr3 = tr).
  { unfold author_name_of. destruct (Py.truthy pa).
    - by apply lift_inv in Han.
    - by injection Han as <- <-. }
  destruct Han' as [Han' ->].
  apply bind_inv in H as (r & tr4 & Hr & _).
  exists k, v, pa, an, r, tr4. repeat split; try done.
  by rewrite <- (create_book_run self b debug tr k v pa an r tr4).
Qed.

Lemma _create_book_debug self t an ak pd p k v tr c tr' :
  _create_book self t an (PStr ak) pd p k v true tr = (Return c, tr') ->
  k ∈ VALID_IDS /\ c = Payload (payload_of t an ak pd p k v) /\ tr' = tr.
Proof.
  unfold _create_book. destruct (bool_decide (k ∈ VALID_IDS)) eqn:Hk;
    cbn [negb]; [|discriminate].
  apply bool_decide_eq_true_1 in Hk. by intros [= <- <-].
Qed.

Lemma _create_book_post self t an ak pd p k v tr :
  k ∈ VALID_IDS ->
  _create_book self t an (PStr ak) pd p k v false tr
  = (let! response :=
       with_backoff "Error creating OpenLibrary book: %s"
         (send self (creation_rq self (payload_of t an ak pd p k v))) in
     let! olid :=
       lift (_extract_olid_from_url (resp_url response) "books") in
     ret (NewOlid olid)) tr.
Proof.
  intros Hk. unfold _create_book.
  by rewrite (bool_decide_eq_true_2 _ Hk).
Qed.

Lemma get_primary_identifier_valid b k v :
  get_primary_identifier b = Return (k, v) -> k ∈ VALID_IDS.
Proof.
  unfold get_primary_identifier.
  destruct (scan_ids (book.identifiers b) VALID_IDS) as [[[k' v']|]| |] eqn:Hs;
    cbn [obind]; try discriminate.
  destruct (Py.truthy (PStr k') && Py.truthy v'); [|discriminate].
  intros [= -> ->]. revert Hs. generalize VALID_IDS.
  induction l as [|key keys IH]; cbn [scan_ids]; [discriminate|].
  destruct (Py.contains key (book.identifiers b)) as [[|]| |];
    cbn [obind]; try discriminate.
  - destruct (Py.getitem (book.identifiers b) key) as [l| |];
      cbn [obind]; try discriminate.
    destruct (Py.getitem0 l); cbn [obind]; try discriminate.
    intros [= -> _]. by left.
  - intros H. right. by apply IH.
Qed.

Lemma no_author_lookup self tr :
  get_matching_authors_olid self (PStr "") tr = (Return None, tr).
Proof. reflexivity. Qed.

(** ** The dry run of [create_book] *)

(** C3.  With [debug] set, [create_book] adds no request to the creation
    endpoint to the trace, whatever the book and the network.  What it
    returns is the assembled fields of this book, and nothing else: the
    title, publish date and publisher of the book, the name of its
    primary author ("" without one), the author key derived from the
    lookup of that name, and the primary identifier; it returns them
    whenever the identifier is usable and the lookup returns, in the
    state the lookup left.  For the book with title "T", ISBN-10
    "1234567890", publisher "P", publish date "2000" and no author these
    are the fields the specification lists, obtained without any event
    at all. *)
Theorem create_book_debug_is_dry_run :
  (forall self b tr,
     exists evs,
       snd (create_book self b true tr) = tr ++ evs
       /\ Forall (fun ev => is_creation_request self ev = false) evs)
  /\ (forall self b tr c tr',
        create_book self b true tr = (Return c, tr') ->
        exists k v pa an r,
          get_primary_identifier b = Return (k, v)
          /\ book.primary_author b = Return pa
          /\ author_name_of pa = Return an
          /\ get_matching_authors_olid self an tr = (Return r, tr')
          /\ c = Payload
                   (payload_of (book.title b) an (author_key_of r)
                      (book.publish_date b) (book.publisher b) k v))
  /\ (forall self b tr k v pa an r tr',
        get_primary_identifier b = Return (k, v) ->
        book.primary_author b = Return pa ->
        author_name_of pa = Return an ->
        get_matching_authors_olid self an tr = (Return r, tr') ->
        create_book self b true tr
        = (Return (Payload
             (payload_of (book.title b) an (author_key_of r)
                (book.publish_date b) (book.publisher b) k v)), tr'))
  /\ (forall self tr,
        create_book self (book_with "isbn_10" [PStr "1234567890"]) true tr
        = (Return (Payload
             {[ "title" := PStr "T";
                "author_name" := PStr "";
                "author_key" := PStr "__new__";
                "publish_date" := PStr "2000";
                "publisher" := PStr "P";
                "id_name" := PStr "isbn_10";
                "id_value" := PStr "1234567890";
                "_save" := PStr "" ]}), tr)).
Proof.
  split; [|split; [|split]].
  - intros self b tr.
    assert (Hk : keeps (fun ev => is_creation_request self ev = false)
                   (fun _ => True) (create_book self b true)).
    { unfold create_book.
      apply keeps_bind; [apply keeps_lift|]. intros [id_name id_value].
      apply keeps_bind; [apply keeps_lift|]. intros primary_author.
      apply keeps_bind.
      { destruct (Py.truthy primary_author);
          [apply keeps_lift|by apply keeps_ret]. }
      intros author_name.
      apply keeps_bind; [apply keeps_get_matching_authors_olid|].
      intros author_olid. unfold _create_book.
      destruct (negb _); [|by apply keeps_ret].
      apply keeps_bind; [apply keeps_lift|]. intros valid.
      apply keeps_raise. }
    destruct (Hk tr) as (evs & Heq & Hall & _). eauto.
  - intros self b tr c tr' H.
    apply create_book_inv in H
      as (k & v & pa & an & r & tr1 & Hp & Hpa & Han & Hr & H).
    apply _create_book_debug in H as (_ & -> & ->).
    exists k, v, pa, an, r. by repeat split.
  - intros self b tr k v pa an r tr' Hp Hpa Han Hr.
    rewrite (create_book_run self b true tr k v pa an r tr') by done.
    unfold _create_book.
    by rewrite (bool_decide_eq_true_2 _ (get_primary_identifier_valid b k v Hp)).
  - intros self tr.
    apply (create_book_debug_no_author self
             (book_with "isbn_10" [PStr "1234567890"]) tr
             "isbn_10" (PStr "1234567890")); [reflexivity| |reflexivity].
    unfold VALID_IDS. apply elem_of_cons. by left.
Qed.

(** The book of the docstring, by Walter Kort, when the lookup of the
    author finds one record of that name. *)
Lemma create_book_debug_is_dry_run_witness :
  create_book
    (answering (json_response (PList [candidate "walter kort" "/authors/OL9A"])))
    (book_by "Walter Kort") true []
  = (Return (Payload
       {[ "title" := PStr "T";
          "author_name" := PStr "Walter Kort";
          "author_key" := PStr "/authors/OL9A";
          "publish_date" := PStr "1982";
          "publisher" := PStr "Bertelsmann";
          "id_name" := PStr "isbn_10";
          "id_value" := PStr "3570028364";
          "_save" := PStr "" ]}),
     [EvRequest (mkRequest GET
        "https://openlibrary.org/authors/_autocomplete?q=Walter Kort&limit=1"
        NoBody [])]).
Proof.
  exact (proj1 (proj2 (proj2 create_book_debug_is_dry_run))
           (answering (json_response
              (PList [candidate "walter kort" "/authors/OL9A"])))
           (book_by "Walter Kort") [] "isbn_10" (PStr "3570028364")
           (PAuthor (PStr "Walter Kort") PNone) (PStr "Walter Kort")
           (Some "OL9A") _ eq_refl eq_refl eq_refl eq_refl).
Defined.

(** ** The order of the identifier kinds *)

(** C4.  On a book whose identifiers are the mapping [d], the kinds are
    tried in the order isbn_10, isbn_13, lccn: isbn_10 is taken whenever
    it is a key, whatever other kinds are; isbn_13 when isbn_10 is no
    key; lccn when neither is; each with the first value listed under
    it, a non-empty one.  Nothing else is ever taken, and the kind and
    value taken are the id_name and id_value of the assembled fields.
    When none of the three is a key, [create_book] raises ValueError and
    no event (so no request) has happened.  A book whose only kind is
    lccn, with a non-empty value and without author, gets the fields
    with id_name lccn in a dry run, and posts these fields otherwise. *)
Theorem primary_identifier_preference
  (b : book.Book) (d : gmap string pyval) :
  book.identifiers b = PDict d ->
  (forall v rest,
     d !! "isbn_10" = Some (PList (v :: rest)) -> Py.truthy v = true ->
     get_primary_identifier b = Return ("isbn_10", v))
  /\ (forall v rest,
        d !! "isbn_10" = None ->
        d !! "isbn_13" = Some (PList (v :: rest)) -> Py.truthy v = true ->
        get_primary_identifier b = Return ("isbn_13", v))
  /\ (forall v rest,
        d !! "isbn_10" = None -> d !! "isbn_13" = None ->
        d !! "lccn" = Some (PList (v :: rest)) -> Py.truthy v = true ->
        get_primary_identifier b = Return ("lccn", v))
  /\ (forall k v,
        get_primary_identifier b = Return (k, v) ->
        (exists l, d !! k = Some l /\ Py.getitem0 l = Return v)
        /\ (k = "isbn_10"
            \/ (k = "isbn_13" /\ d !! "isbn_10" = None)
            \/ (k = "lccn" /\ d !! "isbn_10" = None
                /\ d !! "isbn_13" = None)))
  /\ (forall self tr data tr',
        create_book self b true tr = (Return (Payload data), tr') ->
        exists k v,
          get_primary_identifier b = Return (k, v)
          /\ data !! "id_name" = Some (PStr k)
          /\ data !! "id_value" = Some v)
  /\ (d !! "isbn_10" = None -> d !! "isbn_13" = None -> d !! "lccn" = None ->
      forall self debug tr,
        create_book self b debug tr
        = (Raise (ValueError "ISBN10/13 or LCCN required"), tr))
  /\ (forall v rest,
        d !! "isbn_10" = None -> d !! "isbn_13" = None ->
        d !! "lccn" = Some (PList (v :: rest)) -> Py.truthy v = true ->
        book.authors b = PList [] ->
        forall self tr,
          create_book self b true tr
          = (Return (Payload
               (payload_of (book.title b) (PStr "") "__new__"
                  (book.publish_date b) (book.publisher b) "lccn" v)), tr)
          /\ create_book self b false tr
             = (let! response :=
                  with_backoff "Error creating OpenLibrary book: %s"
                    (send self
                       (creation_rq self
                          (payload_of (book.title b) (PStr "") "__new__"
                             (book.publish_date b) (book.publisher b)
                             "lccn" v))) in
                let! olid :=
                  lift (_extract_olid_from_url (resp_url response) "books") in
                ret (NewOlid olid)) tr).
Proof.
  intros Hd.
  assert (H10 : forall l, d !! "isbn_10" = Some l ->
                          first_kind_present d "isbn_10").
  { intros l Hl. exists [], ["isbn_13"; "lccn"]. by repeat split; eauto. }
  assert (H13 : forall l, d !! "isbn_10" = None -> d !! "isbn_13" = Some l ->
                          first_kind_present d "isbn_13").
  { intros l Hn Hl. exists ["isbn_10"], ["lccn"]. repeat split; eauto. }
  assert (Hlc : forall l, d !! "isbn_10" = None -> d !! "isbn_13" = None ->
                          d !! "lccn" = Some l ->
                          first_kind_present d "lccn").
  { intros l Hn Hn' Hl. exists ["isbn_10"; "isbn_13"], [].
    repeat split; eauto. }
  assert (Hlccn : forall v rest,
            d !! "isbn_10" = None -> d !! "isbn_13" = None ->
            d !! "lccn" = Some (PList (v :: rest)) -> Py.truthy v = true ->
            get_primary_identifier b = Return ("lccn", v)).
  { intros v rest Hn Hn' Hl Hv.
    rewrite (get_primary_identifier_found b d "lccn" _ Hd (Hlc _ Hn Hn' Hl) Hl).
    cbn [Py.getitem0 obind]. by rewrite Hv. }
  split; [|split; [|split; [|split; [|split; [|split]]]]].
  - intros v rest Hl Hv.
    rewrite (get_primary_identifier_found b d "isbn_10" _ Hd (H10 _ Hl) Hl).
    cbn [Py.getitem0 obind]. by rewrite Hv.
  - intros v rest Hn Hl Hv.
    rewrite (get_primary_identifier_found b d "isbn_13" _ Hd (H13 _ Hn Hl) Hl).
    cbn [Py.getitem0 obind]. by rewrite Hv.
  - exact Hlccn.
  - intros k v Hret.
    destruct (scan_ids_cases d) as [[Hn _]|(k' & l & Hk' & Hl & _)].
    + rewrite (get_primary_identifier_none b d Hd Hn) in Hret. discriminate.
    + rewrite (get_primary_identifier_found b d k' l Hd Hk' Hl) in Hret.
      destruct (Py.getitem0 l) as [v'| |] eqn:Hg; cbn [obind] in Hret;
        [|discriminate..].
      destruct (Py.truthy v'); simplify_eq.
      split; [eauto|]. by apply first_kind_present_inv.
  - intros self tr data tr' H.
    apply create_book_inv in H
      as (k & v & pa & an & r & tr1 & Hp & _ & _ & _ & H).
    apply _create_book_debug in H as (_ & [= ->] & _).
    exists k, v. by repeat split.
  - intros Hn10 Hn13 Hnl self debug tr. apply create_book_no_identifier.
    apply (get_primary_identifier_none b d Hd).
    unfold VALID_IDS. by repeat constructor.
  - intros v rest Hn Hn' Hl Hv Ha self tr.
    pose proof (Hlccn v rest Hn Hn' Hl Hv) as Hp.
    assert (Hpa : book.primary_author b = Return PNone).
    { unfold book.primary_author. by rewrite Ha. }
    split.
    + apply create_book_debug_no_author; [done| |done].
      by apply (get_primary_identifier_valid b "lccn" v).
    + rewrite (create_book_run self b false tr "lccn" v PNone (PStr "")
                 None tr Hp Hpa eq_refl (no_author_lookup self tr)).
      apply _create_book_post.
      by apply (get_primary_identifier_valid b "lccn" v).
Qed.

(** A book with an ISBN-13 and an LCCN; a book with all three kinds; a
    book with an LCCN only; and a book with an OCLC number only. *)
Lemma primary_identifier_preference_witness :
  get_primary_identifier (book_of isbn13_and_lccn)
  = Return ("isbn_13", PStr "9780441013593")
  /\ get_primary_identifier (book_of all_three_kinds)
     = Return ("isbn_10", PStr "0441013597")
  /\ create_book unreachable (book_with "lccn" [PStr "2001012345"]) true []
     = (Return (Payload
          {[ "title" := PStr "T";
             "author_name" := PStr "";
             "author_key" := PStr "__new__";
             "publish_date" := PStr "2000";
             "publisher" := PStr "P";
             "id_name" := PStr "lccn";
             "id_value" := PStr "2001012345";
             "_save" := PStr "" ]}), [])
  /\ create_book unreachable (book_with "oclc" [PStr "48"]) false []
     = (Raise (ValueError "ISBN10/13 or LCCN required"), []).
Proof.
  split; [|split; [|split]].
  - exact (proj1 (proj2 (primary_identifier_preference
                           (book_of isbn13_and_lccn) isbn13_and_lccn eq_refl))
             (PStr "9780441013593") [] eq_refl eq_refl eq_refl).
  - exact (proj1 (primary_identifier_preference
                    (book_of all_three_kinds) all_three_kinds eq_refl)
             (PStr "0441013597") [] eq_refl eq_refl).
  - destruct (primary_identifier_preference
                (book_with "lccn" [PStr "2001012345"])
                {[ "lccn" := PList [PStr "2001012345"] ]} eq_refl)
      as (_ & _ & _ & _ & _ & _ & H).
    exact (proj1 (H (PStr "2001012345") [] eq_refl eq_refl eq_refl eq_refl
                    eq_refl unreachable [])).
  - destruct (primary_identifier_preference
                (book_with "oclc" [PStr "48"])
                {[ "oclc" := PList [PStr "48"] ]} eq_refl)
      as (_ & _ & _ & _ & _ & H & _).
    exact (H eq_refl eq_refl eq_refl unreachable false []).
Defined.

(** X4.  Whatever the book and the network: the fields a dry run of
    [create_book] returns are title, author_name, author_key,
    publish_date, publisher, id_name, id_value and _save = ""; id_name
    is one of isbn_10, isbn_13, lccn, id_value is a truthy (non-empty)
    value, and author_key is "__new__" or "/authors/" followed by a
    non-empty identifier without slash. *)
Theorem debug_payload_invariant
  (self : OpenLibrary) (b : book.Book) (tr tr' : trace)
  (data : gmap string pyval) :
  create_book self b true tr = (Return (Payload data), tr') ->
  exists k v an ak,
    data = payload_of (book.title b) an ak (book.publish_date b)
             (book.publisher b) k v
    /\ get_primary_identifier b = Return (k, v)
    /\ k ∈ VALID_IDS /\ Py.truthy v = true
    /\ (ak = "__new__"
        \/ exists o, o <> "" /\ lacks "/"%char o = true
                     /\ ak = "/authors/" +:+ o).
Proof.
  intros H.
  apply create_book_inv in H as (k & v & pa & an & r & tr1 & Hp & _ & _ & Hr & H).
  apply _create_book_debug in H as (Hk & [= ->] & _).
  exists k, v, an, (author_key_of r).
  split; [done|]. split; [done|]. split; [done|].
  split; [by eapply get_primary_identifier_inv|].
  destruct r as [[|c o]|]; [by left| |by left].
  right. exists (String c o). split; [done|]. split; [|done].
  by eapply olid_lacks_slash.
Qed.

Lemma debug_payload_invariant_witness :
  exists k v an ak,
    payload_of (PStr "T") (PStr "Walter Kort") "/authors/OL9A" (PStr "1982")
      (PStr "Bertelsmann") "isbn_10" (PStr "3570028364")
    = payload_of (book.title (book_by "Walter Kort")) an ak
        (book.publish_date (book_by "Walter Kort"))
        (book.publisher (book_by "Walter Kort")) k v
    /\ get_primary_identifier (book_by "Walter Kort") = Return (k, v)
    /\ k ∈ VALID_IDS /\ Py.truthy v = true
    /\ (ak = "__new__"
        \/ exists o, o <> "" /\ lacks "/"%char o = true
                     /\ ak = "/authors/" +:+ o).
Proof.
  exact (debug_payload_invariant
           (answering (json_response
              (PList [candidate "walter kort" "/authors/OL9A"])))
           (book_by "Walter Kort") [] _ _ eq_refl).
Defined.

(** X5.  The fields a dry run returns are the fields the real run posts:
    if [create_book] with [debug] set returns [data], then without
    [debug], from the same state, it posts exactly [data] as a form to
    <base_url>/books/add (behind the retry policy) and returns the
    identifier found after /books/ in the final URL of the answer. *)
Theorem dry_run_is_what_is_posted
  (self : OpenLibrary) (b : book.Book) (tr tr1 : trace)
  (data : gmap string pyval) :
  create_book self b true tr = (Return (Payload data), tr1) ->
  create_book self b false tr
  = (let! response :=
       with_backoff "Error creating OpenLibrary book: %s"
         (send self (creation_rq self data)) in
     let! olid :=
       lift (_extract_olid_from_url (resp_url response) "books") in
     ret (NewOlid olid)) tr1.
Proof.
  intros H.
  apply create_book_inv in H as (k & v & pa & an & r & tr2 & Hp & Hpa & Han & Hr & H).
  apply _create_book_debug in H as (Hk & [= ->] & ->).
  rewrite (create_book_run self b false tr k v pa an r tr2) by done.
  by apply _create_book_post.
Qed.

Lemma dry_run_is_what_is_posted_witness :
  create_book (answering (redirected_to "https://openlibrary.org/books/OL42M/T"))
    (book_with "isbn_10" [PStr "1234567890"]) false []
  = (Return (NewOlid (Some "OL42M")),
     [EvRequest
        (creation_rq
           (answering (redirected_to "https://openlibrary.org/books/OL42M/T"))
           (payload_of (PStr "T") (PStr "") "__new__" (PStr "2000") (PStr "P")
              "isbn_10" (PStr "1234567890")))]).
Proof.
  rewrite (dry_run_is_what_is_posted
             (answering (redirected_to "https://openlibrary.org/books/OL42M/T"))
             (book_with "isbn_10" [PStr "1234567890"]) [] []
             (payload_of (PStr "T") (PStr "") "__new__" (PStr "2000") (PStr "P")
                "isbn_10" (PStr "1234567890")) eq_refl).
  reflexivity.
Defined.

(** X6.  The lookup of the primary author decides the author key: for
    a book with a usable identifier whose primary author has the name
    [n], the dry run returns author_name [n], and author_key
    "/authors/<id>" when the lookup of [n] gives a non-empty <id>,
    "__new__" when it gives none or an empty one. *)
Theorem create_book_author_key
  (self : OpenLibrary) (b : book.Book) (tr tr' : trace)
  (k : string) (v n olid : pyval) (r : option string) :
  get_primary_identifier b = Return (k, v) ->
  book.primary_author b = Return (PAuthor n olid) ->
  get_matching_authors_olid self n tr = (Return r, tr') ->
  create_book self b true tr
  = (Return (Payload
       (payload_of (book.title b) n (author_key_of r) (book.publish_date b)
          (book.publisher b) k v)), tr').
Proof.
  intros Hp Ha Hr.
  rewrite (create_book_run self b true tr k v (PAuthor n olid) n r tr');
    [|done..].
  { unfold _create_book.
    assert (Hk : k ∈ VALID_IDS).
    { unfold get_primary_identifier in Hp.
      destruct (scan_ids (book.identifiers b) VALID_IDS) as [[[k' v']|]| |] eqn:Hs;
        cbn [obind] in Hp; try discriminate.
      destruct (Py.truthy (PStr k') && Py.truthy v'); [|discriminate].
      injection Hp as -> ->.
      clear -Hs. revert Hs. generalize VALID_IDS.
      induction l as [|key keys IH]; cbn [scan_ids]; [discriminate|].
      destruct (Py.contains key (book.identifiers b)) as [[|]| |];
        cbn [obind]; try discriminate.
      - destruct (Py.getitem (book.identifiers b) key) as [l| |];
          cbn [obind]; try discriminate.
        destruct (Py.getitem0 l); cbn [obind]; try discriminate.
        intros [= -> _]. by left.
      - intros H. right. by apply IH. }
    by rewrite (bool_decide_eq_true_2 _ Hk). }
Qed.

Lemma create_book_author_key_witness :
  create_book
    (answering (json_response (PList [candidate "walter kort" "/authors/"])))
    (book_by "Walter Kort") true []
  = (Return (Payload
       (payload_of (PStr "T") (PStr "Walter Kort") "__new__" (PStr "1982")
          (PStr "Bertelsmann") "isbn_10" (PStr "3570028364"))),
     [EvRequest (mkRequest GET
        "https://openlibrary.org/authors/_autocomplete?q=Walter Kort&limit=1"
        NoBody [])]).
Proof.
  exact (create_book_author_key
           (answering (json_response
              (PList [candidate "walter kort" "/authors/"])))
           (book_by "Walter Kort") [] _ "isbn_10" (PStr "3570028364")
           (PStr "Walter Kort") PNone (Some "") eq_refl eq_refl eq_refl).
Defined.

(** ** Search documents and results, continued *)

Lemma as_kwargs_inv v kw : Py.as_kwargs v = Return kw -> v = PDict kw.
Proof. destruct v; cbn; try discriminate. by intros [= ->]. Qed.

Lemma document_init_inv kw d :
  Results.Document_init kw = Return d ->
  exists key,
    kw !! "key" = Some (PStr key)
    /\ Results.identifiers d
       = {[ "olid" := PList [Py.of_option (Re.search (lits "works") key)];
            "isbns" := Py.or_else (Py.kwarg kw "isbns" PNone) (PList []);
            "oclc" := Py.or_else (Py.kwarg kw "oclc" PNone) (PList []);
            "lccn" := Py.or_else (Py.kwarg kw "lccn" PNone) (PList []);
            "goodreads" :=
              Py.or_else (Py.kwarg kw "id_goodreads" PNone) (PList []);
            "librarything" :=
              Py.or_else (Py.kwarg kw "id_librarything" PNone) (PList []) ]}
    /\ Results.title d = Py.kwarg kw "title" (PStr "")
    /\ Results.publishers d = Py.kwarg kw "publisher" PNone
    /\ Results.first_publish_year d = Py.kwarg kw "first_publish_year" PNone.
Proof.
  unfold Results.Document_init.
  destruct (kw !! "self"); [discriminate|].
  destruct (kw !! "key") as [key|]; [|discriminate].
  destruct (Py.as_text key) as [u| |] eqn:Hu; cbn [obind]; [|discriminate..].
  rewrite extract_works. cbn [obind].
  destruct (Py.iter _) as [names| |]; cbn [obind]; [|discriminate..].
  destruct (Py.iter _) as [keys| |]; cbn [obind]; [|discriminate..].
  intros [= <-]. exists u. split; [|done].
  destruct key; cbn in Hu; try discriminate. by injection Hu as ->.
Qed.

Lemma or_else_list v :
  Py.or_else v (PList []) = PList [] \/ Py.truthy (Py.or_else v (PList [])) = true.
Proof. unfold Py.or_else. destruct (Py.truthy v) eqn:H; [by right|by left]. Qed.

Lemma search_alnum p url id :
  Re.search p url = Some id -> id <> "" /\ Text.all_alnum id = true.
Proof.
  intros (pre & suf & _ & Hm)%search_some. revert Hm.
  unfold Re.match_here. destruct suf as [|c s1]; [discriminate|].
  destruct (Ascii.eqb c "/"%char); [|discriminate].
  destruct (Re.match_atoms p s1) as [[|c' s2]|]; try discriminate.
  destruct (Ascii.eqb c' "/"%char); [|discriminate].
  destruct (Text.span_alnum s2) as [a r] eqn:Hs.
  apply span_alnum_spec in Hs as (_ & Ha & _).
  destruct a; [discriminate|]. by intros [= <-].
Qed.

Lemma or_else_dict (ids : gmap string pyval) :
  Py.or_else (PDict ids) (PDict ∅) = PDict ids.
Proof.
  unfold Py.or_else. cbn [Py.truthy].
  destruct (map_to_list ids) eqn:H; [|done].
  apply map_to_list_empty_iff in H. by subst.
Qed.

Lemma or_else_plist l : Py.or_else (PList l) (PList []) = PList l.
Proof. by destruct l. Qed.

Lemma book_kwargs_inv kw b :
  book.Book_kwargs kw = Return b ->
  kw !! "title" = Some (book.title b)
  /\ book.identifiers b
     = Py.or_else (Py.kwarg kw "identifiers" PNone) (PDict ∅)
  /\ book.authors b = Py.or_else (Py.kwarg kw "authors" PNone) (PList [])
  /\ book.publisher b = Py.kwarg kw "publisher" PNone
  /\ book.publish_date b = Py.kwarg kw "publish_date" (PStr "").
Proof.
  unfold book.Book_kwargs. destruct (kw !! "title"); [|discriminate].
  by intros [= <-].
Qed.

(** What [to_book] keeps of a document. *)
Lemma to_book_fields d b :
  Results.to_book d = Return b ->
  book.title b = Results.title d
  /\ book.identifiers b = PDict (Results.identifiers d)
  /\ book.authors b = PList (Results.authors d)
  /\ book.publish_date b = Results.first_publish_year d
  /\ (if Py.truthy (Results.publishers d)
      then Py.getitem0 (Results.publishers d) = Return (book.publisher b)
      else book.publisher b = PStr "").
Proof.
  unfold Results.to_book.
  destruct (Py.truthy (Results.publishers d)).
  - destruct (Py.getitem0 (Results.publishers d)) as [p| |]; cbn [obind];
      [|discriminate..].
    intros (Ht & Hi & Ha & Hp & Hd)%book_kwargs_inv.
    rewrite Hi, Ha, Hp, Hd. injection Ht as <-.
    split; [reflexivity|]. split; [apply or_else_dict|].
    split; [apply or_else_plist|]. split; reflexivity.
  - cbn [obind].
    intros (Ht & Hi & Ha & Hp & Hd)%book_kwargs_inv.
    rewrite Hi, Ha, Hp, Hd. injection Ht as <-.
    split; [reflexivity|]. split; [apply or_else_dict|].
    split; [apply or_else_plist|]. split; reflexivity.
Qed.

(** X9.  A book made from a search document by [to_book] can only be
    created through its LCCN: its identifiers have the kinds olid,
    isbns, oclc, lccn, goodreads, librarything, so isbn_10 and isbn_13
    are never found and lccn always is.  The kind [create_book] takes is
    lccn, and when the document has no (or a falsy) lccn, [create_book]
    raises IndexError before any event, whatever ISBNs the document
    lists. *)
Theorem search_book_needs_lccn
  (kw : gmap string pyval) (d : Results.Document) (b : book.Book) :
  Results.Document_init kw = Return d ->
  Results.to_book d = Return b ->
  (forall k v, get_primary_identifier b = Return (k, v) -> k = "lccn")
  /\ (Py.truthy (Py.kwarg kw "lccn" PNone) = false ->
      forall self debug tr,
        create_book self b debug tr = (Raise IndexError, tr)).
Proof.
  intros (key & _ & Hid & _)%document_init_inv (_ & Hb & _)%to_book_fields.
  rewrite Hid in Hb. clear Hid.
  match type of Hb with _ = PDict ?m => set (ids := m) in * end.
  assert (Hk : first_kind_present ids "lccn").
  { exists ["isbn_10"; "isbn_13"], []. split; [done|].
    split; [by repeat constructor|]. by eexists. }
  pose proof (get_primary_identifier_found b ids "lccn" _ Hb Hk eq_refl)
    as Hfound.
  split.
  - intros k v H. rewrite Hfound in H.
    destruct (Py.getitem0 _) as [v'| |]; cbn [obind] in H;
      [|discriminate..].
    destruct (Py.truthy v'); by simplify_eq.
  - intros Hfalsy self debug tr. apply create_book_no_identifier.
    rewrite Hfound. unfold Py.or_else. by rewrite Hfalsy.
Qed.

Lemma search_book_needs_lccn_witness :
  exists d b,
    Results.Document_init doc_with_isbns = Return d
    /\ Results.to_book d = Return b
    /\ create_book unreachable b false [] = (Raise IndexError, []).
Proof.
  destruct (Results.Document_init doc_with_isbns) as [d| |] eqn:Hd;
    [|discriminate Hd..].
  destruct (Results.to_book d) as [b| |] eqn:Hb.
  - exists d, b. split; [reflexivity|]. split; [exact Hb|].
    exact (proj2 (search_book_needs_lccn doc_with_isbns d b Hd Hb) eq_refl
             unreachable false []).
  - exfalso. injection Hd as <-. discriminate Hb.
  - exfalso. injection Hd as <-. discriminate Hb.
Defined.

(** ** Looking a book up by title *)





(** ** Looking a book up by ISBN, continued *)

Lemma extract_books u :
  _extract_olid_from_url u "books" = Return (Re.search (lits "books") u).
Proof. reflexivity. Qed.

Lemma extract_authors u :
  _extract_olid_from_url u "authors" = Return (Re.search (lits "authors") u).
Proof. reflexivity. Qed.

Lemma contains_present (d : gmap string pyval) k x :
  d !! k = Some x -> Py.contains k (PDict d) = Return true.
Proof. intros H. rewrite contains_dict, H. reflexivity. Qed.

(** X11.  When the lighter ISBN request is answered with an object that
    has the "ISBN:<isbn>" key, bound to an object: [get_olid_by_isbn]
    returns what the extractor finds after /books/ in its info_url, and
    [None] when the record has no info_url; an info_url that is not a
    string raises TypeError. *)
Theorem get_olid_by_isbn_found
  (self : OpenLibrary) (isbn : string) (tr tr' : trace) (resp : response)
  (d e : gmap string pyval) :
  with_backoff "Error retrieving OpenLibrary ID by isbn: %s"
    (http_get self (isbn_url self isbn)) tr = (Return resp, tr') ->
  resp_json resp = Return (PDict d) ->
  d !! ("ISBN:" +:+ isbn) = Some (PDict e) ->
  get_olid_by_isbn self isbn tr
  = (match e !! "info_url" with
     | None => Return None
     | Some (PStr u) => Return (Re.search (lits "books") u)
     | Some _ => Raise TypeError
     end, tr').
Proof.
  intros Hnet Hjson Hd. unfold get_olid_by_isbn. unfold isbn_url in Hnet.
  rewrite (bind_run _ _ _ _ _ Hnet).
  rewrite (bind_run _ _ _ _ _ (json_or_none_value _ _ _ Hjson)).
  rewrite (bind_lift _ true) by (by eapply contains_present).
  rewrite (bind_lift _ (PDict e)) by (cbn [Py.getitem]; by rewrite Hd).
  rewrite (bind_lift _ (default (PStr "") (e !! "info_url"))) by done.
  destruct (e !! "info_url") as [[| | |u| | |]|]; try reflexivity.
Qed.

Lemma get_olid_by_isbn_found_witness :
  get_olid_by_isbn
    (answering (json_response
       (isbn_body {[ "info_url" := PStr "https://openlibrary.org/books/OL1M/X" ]})))
    "123" []
  = (Return (Some "OL1M"),
     [EvRequest (mkRequest GET
        "https://openlibrary.org/api/books?bibkeys=ISBN:123&format=json"
        NoBody [])]).
Proof.
  exact (get_olid_by_isbn_found
           (answering (json_response
              (isbn_body {[ "info_url" :=
                              PStr "https://openlibrary.org/books/OL1M/X" ]})))
           "123" [] _ _ _ _ eq_refl eq_refl eq_refl).
Defined.

Lemma convert_author_records recs :
  convert_authors (map author_record recs)
  = Return (map author_of_record recs).
Proof.
  induction recs as [|[n u] recs IH]; [done|].
  cbn [map convert_authors]. unfold author_record at 1 2.
  cbn [Py.getitem fst snd].
  rewrite lookup_insert_eq. cbn [obind].
  rewrite lookup_insert_ne by done. rewrite lookup_singleton_eq.
  cbn [obind Py.as_text]. rewrite extract_authors. cbn [obind].
  by rewrite IH.
Qed.

(** X12.  When the ISBN request is answered with an object whose
    "ISBN:<isbn>" record has a string key, an identifiers object, a
    title, and authors that are absent or a list of records with a name
    and a url: [get_book_by_isbn] prints the key and returns a Book with
    that title, whose identifiers are the record's with olid added, a
    one-element list holding what the extractor finds after /books/ in
    the key ([None] if nothing), and whose authors are the records
    converted in order, each with what the extractor finds after
    /authors/ in its url (no author when the field is absent). *)
Theorem get_book_by_isbn_found
  (self : OpenLibrary) (isbn key : string) (tr tr' : trace) (resp : response)
  (d ed ids : gmap string pyval) (t : pyval) (recs : list (pyval * string)) :
  with_backoff "Error retrieving OpenLibrary book by isbn: %s"
    (http_get self (isbn_data_url self isbn)) tr = (Return resp, tr') ->
  resp_json resp = Return (PDict d) ->
  d !! ("ISBN:" +:+ isbn) = Some (PDict ed) ->
  ed !! "key" = Some (PStr key) ->
  ed !! "identifiers" = Some (PDict ids) ->
  ed !! "title" = Some t ->
  default (PList []) (ed !! "authors") = PList (map author_record recs) ->
  exists b,
    get_book_by_isbn self isbn tr
    = (Return (Some b), tr' ++ [EvPrint (PStr key)])
    /\ book.title b = t
    /\ book.identifiers b
       = PDict (<["olid" := PList [Py.of_option
                                     (Re.search (lits "books") key)]]> ids)
    /\ book.authors b = PList (map author_of_record recs).
Proof.
  intros Hnet Hjson Hd Hkey Hids Ht Hauth.
  unfold get_book_by_isbn. unfold isbn_data_url in Hnet.
  rewrite (bind_run _ _ _ _ _ Hnet).
  rewrite (bind_run _ _ _ _ _ (json_or_none_value _ _ _ Hjson)).
  rewrite (bind_lift _ true) by (by eapply contains_present).
  rewrite (bind_lift _ (PDict ed)) by (cbn [Py.getitem]; by rewrite Hd).
  rewrite (bind_lift _ (PStr key)) by (cbn [Py.getitem]; by rewrite Hkey).
  rewrite bind_emit.
  rewrite (bind_lift _ key) by done.
  rewrite (bind_lift _ (Re.search (lits "books") key)) by done.
  rewrite (bind_lift _ (PDict ids)).
  2:{ cbn [Py.getitem]. rewrite lookup_delete_ne by done. by rewrite Hids. }
  set (ids' := <["olid" := PList [Py.of_option (Re.search (lits "books") key)]]> ids).
  rewrite (bind_lift _ (PDict ids')) by done.
  assert (Hauth' :
    default (PList []) (<["identifiers" := PDict ids']> (delete "key" ed) !! "authors")
    = PList (map author_record recs)).
  { rewrite lookup_insert_ne by done. rewrite lookup_delete_ne by done.
    exact Hauth. }
  rewrite Hauth'.
  rewrite (bind_lift _ (map author_record recs)) by done.
  rewrite (bind_lift _ (map author_of_record recs))
    by apply convert_author_records.
  match goal with
  | |- context [book.Book_kwargs ?kw] =>
      destruct (book.Book_kwargs kw) as [b| |] eqn:Hb;
      [|exfalso; revert Hb; unfold book.Book_kwargs;
        rewrite lookup_insert_ne by done;
        rewrite lookup_delete_ne by done;
        rewrite lookup_insert_ne by done;
        rewrite lookup_delete_ne by done;
        rewrite Ht; discriminate..]
  end.
  rewrite (bind_lift _ b) by done.
  exists b. split; [reflexivity|].
  apply book_kwargs_inv in Hb as (Hbt & Hbi & Hba & _).
  rewrite lookup_insert_ne in Hbt by done.
  rewrite lookup_delete_ne in Hbt by done.
  rewrite lookup_insert_ne in Hbt by done.
  rewrite lookup_delete_ne in Hbt by done.
  rewrite Ht in Hbt. injection Hbt as <-.
  split; [done|]. split.
  - rewrite Hbi. unfold Py.kwarg.
    rewrite lookup_insert_ne by done. rewrite lookup_delete_ne by done.
    rewrite lookup_insert_eq. apply or_else_dict.
  - rewrite Hba. unfold Py.kwarg. rewrite lookup_insert_eq.
    apply or_else_plist.
Qed.

Lemma get_book_by_isbn_found_witness :
  exists b,
    get_book_by_isbn (answering (json_response (isbn_body bare_edition)))
      "123" []
    = (Return (Some b),
       [EvRequest (mkRequest GET
          "https://openlibrary.org/api/books?bibkeys=ISBN:123&format=json&jscmd=data"
          NoBody [])] ++ [EvPrint (PStr "/works/OL1W")])
    /\ book.title b = PStr "Dune"
    /\ book.identifiers b
       = PDict (<["olid" := PList [PNone]]>
                  {[ "isbn_10" := PList [PStr "0441013597"] ]})
    /\ book.authors b = PList [].
Proof.
  exact (get_book_by_isbn_found
           (answering (json_response (isbn_body bare_edition)))
           "123" "/works/OL1W" [] _ _ _ bare_edition _ (PStr "Dune") []
           eq_refl eq_refl eq_refl eq_refl eq_refl eq_refl eq_refl).
Defined.

(** X13.  A found record must carry a key and identifiers: when the
    "ISBN:<isbn>" record has no key field, [get_book_by_isbn] raises
    KeyError('key') and prints nothing; when it has a string key but no
    identifiers field, the key is printed and KeyError('identifiers') is
    raised. *)
Theorem get_book_by_isbn_incomplete_record
  (self : OpenLibrary) (isbn : string) (tr tr' : trace) (resp : response)
  (d ed : gmap string pyval) :
  with_backoff "Error retrieving OpenLibrary book by isbn: %s"
    (http_get self (isbn_data_url self isbn)) tr = (Return resp, tr') ->
  resp_json resp = Return (PDict d) ->
  d !! ("ISBN:" +:+ isbn) = Some (PDict ed) ->
  (ed !! "key" = None ->
   get_book_by_isbn self isbn tr = (Raise (KeyError "key"), tr'))
  /\ (forall key,
        ed !! "key" = Some (PStr key) -> ed !! "identifiers" = None ->
        get_book_by_isbn self isbn tr
        = (Raise (KeyError "identifiers"), tr' ++ [EvPrint (PStr key)])).
Proof.
  intros Hnet Hjson Hd. unfold isbn_data_url in Hnet. split.
  - intros Hkey. unfold get_book_by_isbn.
    rewrite (bind_run _ _ _ _ _ Hnet).
    rewrite (bind_run _ _ _ _ _ (json_or_none_value _ _ _ Hjson)).
    rewrite (bind_lift _ true) by (by eapply contains_present).
    rewrite (bind_lift _ (PDict ed)) by (cbn [Py.getitem]; by rewrite Hd).
    unfold bind, lift. cbn [Py.getitem]. by rewrite Hkey.
  - intros key Hkey Hids. unfold get_book_by_isbn.
    rewrite (bind_run _ _ _ _ _ Hnet).
    rewrite (bind_run _ _ _ _ _ (json_or_none_value _ _ _ Hjson)).
    rewrite (bind_lift _ true) by (by eapply contains_present).
    rewrite (bind_lift _ (PDict ed)) by (cbn [Py.getitem]; by rewrite Hd).
    rewrite (bind_lift _ (PStr key)) by (cbn [Py.getitem]; by rewrite Hkey).
    rewrite bind_emit.
    rewrite (bind_lift _ key) by done.
    rewrite (bind_lift _ (Re.search (lits "books") key)) by done.
    unfold bind, lift. cbn [Py.getitem].
    rewrite lookup_delete_ne by done. by rewrite Hids.
Qed.

Lemma get_book_by_isbn_incomplete_record_witness :
  get_book_by_isbn
    (answering (json_response (isbn_body {[ "title" := PStr "X" ]}))) "123" []
  = (Raise (KeyError "key"),
     [EvRequest (mkRequest GET
        "https://openlibrary.org/api/books?bibkeys=ISBN:123&format=json&jscmd=data"
        NoBody [])])
  /\ get_book_by_isbn
       (answering (json_response
          (isbn_body {[ "key" := PStr "/books/OL1M"; "title" := PStr "X" ]})))
       "123" []
     = (Raise (KeyError "identifiers"),
        [EvRequest (mkRequest GET
           "https://openlibrary.org/api/books?bibkeys=ISBN:123&format=json&jscmd=data"
           NoBody [])] ++ [EvPrint (PStr "/books/OL1M")]).
Proof.
  split.
  - exact (proj1 (get_book_by_isbn_incomplete_record
                    (answering (json_response
                       (isbn_body {[ "title" := PStr "X" ]})))
                    "123" [] _ _ _ _ eq_refl eq_refl eq_refl) eq_refl).
  - exact (proj2 (get_book_by_isbn_incomplete_record
                    (answering (json_response
                       (isbn_body {[ "key" := PStr "/books/OL1M";
                                     "title" := PStr "X" ]})))
                    "123" [] _ _ _ _ eq_refl eq_refl eq_refl)
             "/books/OL1M" eq_refl eq_refl).
Defined.

(** ** Answers that are not JSON *)

(** X14.  Only the two ISBN lookups and the search catch the ValueError
    of a body that is not JSON.  [get_book_by_olid] lets it through, and
    so does [create_book] when the author lookup is answered with such a
    body: it then raises this ValueError, though the book has a usable
    identifier. *)
Theorem unparsable_answers_propagate
  (self : OpenLibrary) (tr tr' : trace) (resp : response) (m : string) :
  resp_json resp = Raise (ValueError m) ->
  (forall olid o,
     Py.format_s olid = Return o ->
     with_backoff "Error retrieving OpenLibrary book: %s"
       (http_get self (olid_url self o)) tr = (Return resp, tr') ->
     get_book_by_olid self olid tr = (Raise (ValueError m), tr'))
  /\ (forall b debug k v n olid,
        get_primary_identifier b = Return (k, v) ->
        book.primary_author b = Return (PAuthor (PStr n) olid) ->
        n <> "" ->
        with_backoff "Error fetching author matches: %s"
          (http_get self (authors_url self n)) tr = (Return resp, tr') ->
        create_book self b debug tr = (Raise (ValueError m), tr')).
Proof.
  intros Hjson. split.
  - intros olid o Ho Hnet. unfold get_book_by_olid.
    rewrite (bind_lift _ o) by done. unfold olid_url in Hnet.
    rewrite (bind_run _ _ _ _ _ Hnet).
    unfold bind, lift. by rewrite Hjson.
  - intros b debug k v n olid Hp Hpa Hn Hnet. unfold create_book.
    rewrite (bind_lift _ (k, v)) by done.
    rewrite (bind_lift _ (PAuthor (PStr n) olid)) by done.
    cbn [Py.truthy]. rewrite (bind_lift _ (PStr n)) by done.
    apply bind_raise. unfold get_matching_authors_olid.
    apply bind_raise.
    rewrite (get_matching_authors_answered self n tr tr' resp Hn Hnet).
    by rewrite Hjson.
Qed.

Lemma unparsable_answers_propagate_witness :
  get_book_by_olid (answering not_json) (PStr "OL1M") []
  = (Raise (ValueError "No JSON object could be decoded"),
     [EvRequest (mkRequest GET "https://openlibrary.org/books/OL1M.json"
                   NoBody [])])
  /\ create_book (answering not_json) (book_by "Walter Kort") true []
     = (Raise (ValueError "No JSON object could be decoded"),
        [EvRequest (mkRequest GET
           "https://openlibrary.org/authors/_autocomplete?q=Walter Kort&limit=1"
           NoBody [])]).
Proof.
  destruct (unparsable_answers_propagate (answering not_json) [] 
              [EvRequest (mkRequest GET "https://openlibrary.org/books/OL1M.json"
                            NoBody [])]
              not_json _ eq_refl) as [H _].
  destruct (unparsable_answers_propagate (answering not_json) []
              [EvRequest (mkRequest GET
                 "https://openlibrary.org/authors/_autocomplete?q=Walter Kort&limit=1"
                 NoBody [])]
              not_json _ eq_refl) as [_ H'].
  split.
  - exact (H (PStr "OL1M") "OL1M" eq_refl eq_refl).
  - exact (H' (book_by "Walter Kort") true "isbn_10" (PStr "3570028364")
             "Walter Kort" PNone eq_refl eq_refl ltac:(discriminate) eq_refl).
Defined.

(** ** How many requests an operation sends *)
















(** ** Identifiers that come back *)

Lemma extract_alnum url ty id :
  _extract_olid_from_url url ty = Return (Some id) ->
  id <> "" /\ Text.all_alnum id = true.
Proof.
  unfold _extract_olid_from_url. destruct (Re.compile ty) as [p|];
    [|discriminate].
  intros [= H]. by eapply search_alnum.
Qed.

(** X16.  For a resource type that holds no regular-expression
    metacharacter (books, authors, works, ...), an identifier that comes
    back from the extractor is never empty and is made of letters and
    digits only; so is every identifier that [get_olid_by_isbn] returns
    and every identifier of a created book that [create_book] returns,
    both extracting with the type books. *)
Theorem returned_identifiers_are_alphanumeric :
  (forall url ty id,
     literal ty = true ->
     _extract_olid_from_url url ty = Return (Some id) ->
     id <> "" /\ Text.all_alnum id = true)
  /\ (forall self isbn tr id tr',
        get_olid_by_isbn self isbn tr = (Return (Some id), tr') ->
        id <> "" /\ Text.all_alnum id = true)
  /\ (forall self b debug tr id tr',
        create_book self b debug tr = (Return (NewOlid (Some id)), tr') ->
        id <> "" /\ Text.all_alnum id = true).
Proof.
  split; [intros url ty id _; apply extract_alnum|]. split.
  - intros self isbn tr id tr'. unfold get_olid_by_isbn. intros H.
    apply bind_inv in H as (resp & tr1 & _ & H).
    apply bind_inv in H as ([results|] & tr2 & _ & H); [|discriminate].
    apply bind_inv in H as ([|] & tr3 & _ & H); [|discriminate].
    apply bind_inv in H as (entry & tr4 & _ & H).
    apply bind_inv in H as (book_url & tr5 & _ & H).
    apply bind_inv in H as (u & tr6 & _ & H).
    apply lift_inv in H as [H _]. by eapply extract_alnum.
  - intros self b debug tr id tr' H.
    apply create_book_inv in H as (k & v & pa & an & r & tr1 & _ & _ & _ & _ & H).
    unfold _create_book in H. destruct (negb _); [discriminate|].
    destruct debug; [discriminate|].
    apply bind_inv in H as (resp & tr2 & _ & H).
    apply bind_inv in H as (olid & tr3 & Holid & H).
    apply lift_inv in Holid as [Holid _]. injection H as -> _.
    by eapply extract_alnum.
Qed.

Lemma returned_identifiers_are_alphanumeric_witness :
  ("OL25943366M" <> "" /\ Text.all_alnum "OL25943366M" = true)
  /\ ("OL1M" <> "" /\ Text.all_alnum "OL1M" = true)
  /\ ("OL42M" <> "" /\ Text.all_alnum "OL42M" = true).
Proof.
  destruct returned_identifiers_are_alphanumeric as (Hext & Hisbn & Hnew).
  split; [|split].
  - exact (Hext "https://openlibrary.org/books/OL25943366M" "books"
             "OL25943366M" eq_refl eq_refl).
  - exact (Hisbn
             (answering (json_response
                (isbn_body {[ "info_url" :=
                                PStr "https://openlibrary.org/books/OL1M/X" ]})))
             "123" [] "OL1M" _ eq_refl).
  - exact (Hnew
             (answering (redirected_to "https://openlibrary.org/books/OL42M/T"))
             (book_with "isbn_10" [PStr "1234567890"]) false [] "OL42M" _
             eq_refl).
Defined.

(** ** Building the client *)

Lemma not_ends_with_empty c : ~ ends_with c "".
Proof. intros [[|c' p] H]; discriminate. Qed.

Lemma rstrip_slash_spec s :
  ~ ends_with "/"%char (rstrip_slash s)
  /\ exists n, s = rstrip_slash s +:+ slashes n.
Proof.
  induction s as [|c s [IHe [n IHn]]]; cbn [rstrip_slash].
  - split; [apply not_ends_with_empty|]. by exists 0.
  - destruct (rstrip_slash s) as [|c' r] eqn:Hr.
    + rewrite sapp_nil_l in IHn. subst s.
      destruct (Ascii.eqb_spec c "/"%char) as [->|Hne].
      * split; [apply not_ends_with_empty|]. by exists (S n).
      * split; [|by exists n].
        intros [[|c' p] H]; [injection H as ->; done|].
        rewrite sapp_cons in H. injection H as _ H. by destruct p.
    + split.
      * intros [[|c'' p] H]; [discriminate|].
        rewrite sapp_cons in H. injection H as _ H.
        apply IHe. by exists p.
      * exists n. by rewrite sapp_cons, <- IHn.
Qed.

(** X17.  A client built without an explicit base URL (or with an empty
    one) has the configured URL with all trailing slashes removed; an
    explicit base URL is kept exactly as given, trailing slashes
    included.  A user name is recorded only after a login that
    succeeded; when none is recorded, the constructor has added nothing
    to the trace. *)
Theorem constructor_base_url
  (network : transport) (cfg : ol_config) (url : option string)
  (credentials : option (gmap string pyval)) (tr tr' : trace)
  (inst : instance) :
  OpenLibrary_init network cfg url credentials tr = (Return inst, tr') ->
  net (this inst) = network
  /\ match url with
     | Some (String c s) => base_url (this inst) = String c s
     | _ =>
         ~ ends_with "/"%char (base_url (this inst))
         /\ exists n, config_url cfg = base_url (this inst) +:+ slashes n
     end
  /\ match username inst with
     | Some u =>
         exists c, c !! "username" = Some u
                   /\ login (this inst) c tr = (Return tt, tr')
     | None => tr' = tr
     end.
Proof.
  unfold OpenLibrary_init.
  set (base := match url with
               | Some (String c s) => String c s
               | _ => rstrip_slash (config_url cfg)
               end).
  set (self := Build_OpenLibrary base network).
  assert (Hbase : match url with
                  | Some (String c s) => base = String c s
                  | _ => ~ ends_with "/"%char base
                         /\ exists n, config_url cfg = base +:+ slashes n
                  end).
  { subst base. destruct url as [[|c s]|]; try done;
      apply rstrip_slash_spec. }
  clearbody base.
  match goal with
  | |- match ?chosen with _ => _ end _ = _ -> _ => destruct chosen as [c|]
  end.
  - destruct (Py.truthy (PDict c)).
    + intros H. apply bind_inv in H as (u & tr1 & Hu & H).
      apply lift_inv in Hu as [Hu ->].
      apply bind_inv in H as ([] & tr2 & Hlogin & H).
      injection H as <- <-. cbn [this username].
      split; [done|]. split; [exact Hbase|].
      exists c. split; [|done].
      unfold username_of in Hu. by destruct (c !! "username"); simplify_eq.
    + intros [= <- <-]. cbn [this username]. done.
  - intros [= <- <-]. cbn [this username]. done.
Qed.

Lemma constructor_base_url_witness :
  ~ ends_with "/"%char "https://openlibrary.org"
  /\ exists n,
       "https://openlibrary.org//" = "https://openlibrary.org" +:+ slashes n.
Proof.
  exact (proj1 (proj2 (constructor_base_url (net unreachable)
                         {| config_url := "https://openlibrary.org//";
                            config_credentials := None |}
                         None None [] [] _ eq_refl))).
Defined.
